(** * Charlton [spec.py]: model matrix construction

    A shallow embedding of [charlton/spec.py] (factor evaluators, the
    per-term [ColumnBuilder], the memorization and type-examination passes,
    [_make_model_builder], [ModelMatrixBuilder] and [ModelSpec]) together
    with the properties its design document states about them, and with
    further properties read off the code.

    Conventions of the embedding:
    - a Python call that may raise returns a [result]; the exception classes
      are the constructors of [exn];
    - a [dict] is a [gmap], a Python [list] a [list], a NumPy array an
      [ndarray] (shape and row-major items) tagged with its dtype;
    - [float64] entries are Rocq's primitive binary64 floats;
    - a name a function body reads without binding it is looked up in the
      module namespace ([NameError] when the name is unbound there); the
      binding is passed explicitly where a property is also stated for
      the name bound, and is otherwise what [spec.py] has, none. *)

From Stdlib Require Import ZArith List String PrimFloat SpecFloat FloatOps Lia.
From stdpp Require Import base option list gmap strings pretty.

Local Open Scope string_scope.
Local Open Scope nat_scope.

(** ** Exceptions and the [result] monad *)

(** The messages of the [CharltonErrorWithOrigin] raised in this file. *)
Inductive charlton_msg :=
| msg_too_many_dims (ndim dim : nat)
| msg_not_boolean
| msg_wrong_columns
| msg_non_numeric
| msg_not_categorical
| msg_unexpected_levels.

Inductive exn (Factor : Type) :=
| CharltonErrorWithOrigin (msg : charlton_msg) (origin : Factor)
| AssertionError
| KeyError
| IndexError
| ValueError
| TypeError
| AttributeError
| RuntimeError
| NameError (name : string).
Arguments CharltonErrorWithOrigin {Factor} msg origin.
Arguments AssertionError {Factor}.
Arguments KeyError {Factor}.
Arguments IndexError {Factor}.
Arguments ValueError {Factor}.
Arguments TypeError {Factor}.
Arguments AttributeError {Factor}.
Arguments RuntimeError {Factor}.
Arguments NameError {Factor} name.

Inductive result (Factor A : Type) :=
| Ok (a : A)
| Raise (e : exn Factor).
Arguments Ok {Factor A} a.
Arguments Raise {Factor A} e.

Global Instance result_ret {Factor} : MRet (result Factor) := fun _ a => Ok a.
Global Instance result_bind {Factor} : MBind (result Factor) := fun _ _ f m =>
  match m with
  | Ok a => f a
  | Raise e => Raise e
  end.
Global Instance result_fmap {Factor} : FMap (result Factor) := fun _ _ f m =>
  match m with
  | Ok a => Ok (f a)
  | Raise e => Raise e
  end.

(** [d[k]] on a dict: [KeyError] when the key is absent. *)
Definition getitem {Factor} `{Countable K} {V} (d : gmap K V) (k : K) : result Factor V :=
  match d !! k with
  | Some v => Ok v
  | None => Raise KeyError
  end.

(** [l[i]] on a list or tuple with a non-negative index. *)
Definition list_getitem {Factor A} (l : list A) (i : nat) : result Factor A :=
  match l !! i with
  | Some v => Ok v
  | None => Raise IndexError
  end.

Definition assert {Factor} (b : bool) : result Factor unit :=
  if b then Ok () else Raise AssertionError.

(** ** NumPy arrays *)

(** An array of any dimensionality: its shape and its items in row-major
    order; [ndim] is the length of the shape. *)
Record ndarray (A : Type) := NDArray { shape : list nat; items : list A }.
Arguments NDArray {A} shape items.
Arguments shape {A} _.
Arguments items {A} _.

Definition ndim {A} (a : ndarray A) : nat := length (shape a).

(** An array together with its dtype. [AObject] is the object dtype, whose
    items are opaque here. *)
Inductive array :=
| ABool (a : ndarray bool)
| AInt (a : ndarray Z)
| AFloat (a : ndarray float)
| AStr (a : ndarray string)
| AObject (a : ndarray unit).

Definition array_shape (v : array) : list nat :=
  match v with
  | ABool a => shape a
  | AInt a => shape a
  | AFloat a => shape a
  | AStr a => shape a
  | AObject a => shape a
  end.

Definition array_ndim (v : array) : nat := length (array_shape v).

(** [np.issubdtype(v.dtype, np.number)]. *)
Definition is_number (v : array) : bool :=
  match v with
  | AInt _ | AFloat _ => true
  | _ => false
  end.

(** [v.dtype.kind == "b"]. *)
Definition is_bool_kind (v : array) : bool :=
  match v with
  | ABool _ => true
  | _ => false
  end.

(** The cast NumPy applies when an [int64] array is multiplied into a
    [float64] one: the integer rounded to the nearest binary64 number, ties
    to even (exact below [2^53] in magnitude, and at the powers of two up
    to [-2^63], the least [int64]). *)
Definition float_of_Z (z : Z) : float :=
  SF2Prim (binary_normalize prec emax z 0 false).

(** [a.reshape((-1, 1))] on an array of at most one dimension; an array of
    two or more dimensions is left as it is. *)
Definition column_shape (s : list nat) : list nat :=
  match s with
  | [] => [1; 1]
  | [n] => [n; 1]
  | _ => s
  end.

Definition reshape_column {A} (a : ndarray A) : ndarray A :=
  NDArray (column_shape (shape a)) (items a).

(** A 2-dimensional [float64] array, as a list of rows: the type of the
    output matrix of [ColumnBuilder.build] and of a contrast matrix. The
    shape is kept beside the rows (a matrix may have no row and yet some
    columns). *)
Record matrix := Matrix { nrows : nat; ncols : nat; rows : list (list float) }.

(** [out[:] = 1]. *)
Definition fill_ones (out : matrix) : matrix :=
  Matrix (nrows out) (ncols out) (replicate (nrows out) (replicate (ncols out) 1%float)).

(** Broadcasting of a 1-dimensional operand against [n] rows: the lengths
    agree, or the operand has length 1. *)
Definition broadcast_to {Factor} (n : nat) (v : list float) : result Factor (list float) :=
  if decide (length v = n) then Ok v
  else match v with
       | [x] => Ok (replicate n x)
       | _ => Raise ValueError
       end.

(** [out[:, i] *= v] for a 1-dimensional [v]. Nothing is written when the
    statement raises. *)
Definition imul_column {Factor} (out : matrix) (i : nat) (v : list float) : result Factor matrix :=
  if decide (i < ncols out) then
    v' ← broadcast_to (nrows out) v;
    Ok (Matrix (nrows out) (ncols out)
          (zip_with (fun row x => alter (fun y => (y * x)%float) i row) (rows out) v'))
  else Raise IndexError.

(** An index into an axis of length [n]: a negative index counts from the
    end. *)
Definition normalize_index {Factor} (n : nat) (k : Z) : result Factor nat :=
  if decide (0 ≤ k < Z.of_nat n)%Z then Ok (Z.to_nat k)
  else if decide (- Z.of_nat n ≤ k < 0)%Z then Ok (Z.to_nat (k + Z.of_nat n))
  else Raise IndexError.

(** [m[idx, col]] for a 1-dimensional integer array [idx] and a column. *)
Definition take_rows {Factor} (m : matrix) (idx : list Z) (col : nat) : result Factor (list float) :=
  if decide (col < ncols m) then
    mapM (fun k => r ← normalize_index (nrows m) k;
                   row ← list_getitem (rows m) r;
                   list_getitem row col) idx
  else Raise IndexError.

(** [a[:, col]] for a 2-dimensional array [a]. *)
Definition column {Factor A} (a : ndarray A) (col : nat) : result Factor (list A) :=
  match shape a with
  | [n; c] =>
      if decide (col < c) then
        mapM (fun r => list_getitem (items a) (r * c + col)) (seq 0 n)
      else Raise IndexError
  | [] | [_] => Raise IndexError
  | _ => Raise ValueError
  end.

(** Modelled from the spec: [odometer_iter] of [charlton.util] is not in
    this file; the spec (4.4) has it enumerate every combination of column
    indices by mixed-radix counting, position [i] having radix
    [maximums[i]], the rightmost position varying fastest. *)
Fixpoint odometer_iter (maximums : list nat) : list (list nat) :=
  match maximums with
  | [] => [[]]
  | m :: rest => idx ← seq 0 m; (fun idxs => idx :: idxs) <$> odometer_iter rest
  end.

(** [np.prod(l, dtype=int)]. *)
Definition prod (l : list nat) : nat := foldr Nat.mul 1 l.

(** [sep.join(pieces)]. *)
Fixpoint join (sep : string) (pieces : list string) : string :=
  match pieces with
  | [] => ""
  | [p] => p
  | p :: rest => p +:+ sep +:+ join sep rest
  end.

(** [enumerate(l)]. *)
Definition enumerate {A} (l : list A) : list (nat * A) := zip (seq 0 (length l)) l.

(** A Python loop over [l] whose body updates the state [S] in place and may
    raise: the loop stops at the first exception, and the state keeps what
    was written before it. *)
Fixpoint for_in {Factor A S} (l : list A) (body : A → S → S * option (exn Factor)) (s : S)
  : S * option (exn Factor) :=
  match l with
  | [] => (s, None)
  | x :: l' =>
      match body x s with
      | (s', None) => for_in l' body s'
      | (s', Some e) => (s', Some e)
      end
  end.

(** ** [ContrastMatrix] (of [charlton.contrasts]): a contrast matrix and
    one name suffix per column. *)
Record ContrastMatrix := { contrast_matrix : matrix; column_suffixes : list string }.

(** ** Values and environments *)

(** A level of a categorical value: a Python string, boolean or integer. *)
Inductive level :=
| LStr (s : string)
| LBool (b : bool)
| LInt (z : Z).

(** Python's [==] on levels: a boolean equals the integer it stands for. *)
Definition level_int (l : level) : option Z :=
  match l with
  | LStr _ => None
  | LBool b => Some (if b then 1 else 0)%Z
  | LInt z => Some z
  end.

Definition level_eqb (a b : level) : bool :=
  match a, b with
  | LStr s, LStr s' => bool_decide (s = s')
  | LStr _, _ | _, LStr _ => false
  | _, _ => bool_decide (level_int a = level_int b)
  end.

(** [a == b] on tuples of levels. *)
Fixpoint levels_eqb (a b : list level) : bool :=
  match a, b with
  | [], [] => true
  | x :: a', y :: b' => level_eqb x y && levels_eqb a' b'
  | _, _ => false
  end.

(** [Categorical] (of [charlton.categorical]): the integer index array, the
    level tuple and the optional contrast the design document lists as the
    categorical value contract (6). *)
Record Categorical := {
  int_array : ndarray Z;
  levels : list level;
  contrast : option ContrastMatrix
}.

(** What a factor evaluates to: a [Categorical] object, or array-like data,
    given as the array [np.asarray] makes of it. *)
Inductive value :=
| VCategorical (c : Categorical)
| VArray (a : array).

(** [np.asarray(v)]: an object that is not array-like becomes a
    0-dimensional array of dtype object. *)
Definition asarray (v : value) : array :=
  match v with
  | VArray a => a
  | VCategorical _ => AObject (NDArray [] [()])
  end.

(** Modelled from the spec: [atleast_2d_column_default] of [charlton.util]
    is not in this file; the spec (4.3) has it coerce a value to an array
    of at least 2 dimensions in which a lower-dimensional value becomes a
    column, "column vector minimum width 1". *)
Definition atleast_2d_column_default (v : value) : array :=
  match asarray v with
  | ABool a => ABool (reshape_column a)
  | AInt a => AInt (reshape_column a)
  | AFloat a => AFloat (reshape_column a)
  | AStr a => AStr (reshape_column a)
  | AObject a => AObject (reshape_column a)
  end.

(** A chunk of data or a set of default bindings: a dict from names to
    values. *)
Abbreviation bindings := (gmap string value).

(** [DictStack] (of [charlton.eval]): a lookup that tries each dict in
    turn. A bare dict used as an environment is the stack of that dict. *)
Definition DictStack := list bindings.

Fixpoint stack_getitem {Factor} (e : DictStack) (k : string) : result Factor value :=
  match e with
  | [] => Raise KeyError
  | d :: e' =>
      match d !! k with
      | Some v => Ok v
      | None => stack_getitem e' k
      end
  end.

(** A name read from the module namespace: [NameError] when the module
    does not bind it. *)
Definition global {Factor A} (name : string) (binding : option A) : result Factor A :=
  match binding with
  | Some v => Ok v
  | None => Raise (NameError name)
  end.

(** ** The factor protocol

    What this file calls on a factor (see [LookupFactor], "Example of
    Factor protocol"). A method that updates the state it is given returns
    the new state. *)
Class FactorProtocol (Factor State Transforms : Type) := {
  name : Factor → string;
  memorize_passes_needed : Factor → State → Transforms → result Factor (State * Z);
  memorize_chunk : Factor → State → nat → DictStack → result Factor State;
  memorize_finish : Factor → State → nat → result Factor State;
  eval : Factor → State → DictStack → result Factor value
}.

(** ** [_max_allowed_dim] *)
Definition _max_allowed_dim {Factor} (dim : nat) (arr : array) (factor : Factor)
  : result Factor unit :=
  if decide (dim < array_ndim arr)
  then Raise (CharltonErrorWithOrigin (msg_too_many_dims (array_ndim arr) dim) factor)
  else Ok ().

(** ** [class _BoolToCategorical] *)
Module _BoolToCategorical.
Section BoolToCategorical.
Context {Factor : Type}.

Record t := { factor : Factor }.

(** [Categorical(data, levels=[False, True])] on boolean data: the index
    of [False] is 0 and that of [True] is 1. *)
Definition categorical_of_bools (data : ndarray bool) : Categorical :=
  {| int_array := NDArray (shape data) ((fun b : bool => if b then 1 else 0)%Z <$> items data);
     levels := [LBool false; LBool true];
     contrast := None |}.

(** [_BoolToCategorical.transform]. *)
Definition transform (self : t) (data : value) : result Factor value :=
  let data := asarray data in
  _ ← _max_allowed_dim 1 data (factor self);
  match data with
  | ABool a => Ok (VCategorical (categorical_of_bools a))
  | _ => Raise (CharltonErrorWithOrigin msg_not_boolean (factor self))
  end.
End BoolToCategorical.
End _BoolToCategorical.

(** A categorical postprocessor: a [_BoolToCategorical], or a
    [CategoricalTransform] of [charlton.categorical], whose state type [CT]
    and methods are parameters of what follows. *)
Inductive postprocessor (Factor CT : Type) :=
| BoolToCategorical (p : @_BoolToCategorical.t Factor)
| CategoricalTransform (p : CT).
Arguments BoolToCategorical {Factor CT} p.
Arguments CategoricalTransform {Factor CT} p.

(** The module-level bindings of the names the two [eval] methods read
    without binding them. *)
Record eval_globals := { g_env : option bindings; g_default_env : option bindings }.

(** [spec.py] binds neither name at module level. *)
Definition spec_eval_globals : eval_globals := {| g_env := None; g_default_env := None |}.

(** ** [class NumericFactorEvaluator] *)
Module NumericFactorEvaluator.
Section NumericFactorEvaluator.
Context {Factor State Transforms : Type} `{FactorProtocol Factor State Transforms}.

Record t := {
  factor : Factor;
  _state : State;
  _expected_columns : nat;
  _default_env : bindings
}.

(** [NumericFactorEvaluator.eval]. *)
Definition eval (G : eval_globals) (self : t) (data : bindings) : result Factor array :=
  env ← global "env" (g_env G);
  default_env ← global "default_env" (g_default_env G);
  result ← eval (factor self) (_state self) [env; default_env];
  let result := atleast_2d_column_default result in
  _ ← _max_allowed_dim 2 result (factor self);
  width ← list_getitem (array_shape result) 1;
  if decide (width ≠ _expected_columns self)
  then Raise (CharltonErrorWithOrigin msg_wrong_columns (factor self))
  else if negb (is_number result)
  then Raise (CharltonErrorWithOrigin msg_non_numeric (factor self))
  else Ok result.
End NumericFactorEvaluator.
End NumericFactorEvaluator.

(** ** [class CategoricFactorEvaluator] *)
Module CategoricFactorEvaluator.
Section CategoricFactorEvaluator.
Context {Factor State Transforms : Type} `{FactorProtocol Factor State Transforms}.
Context {CT : Type}.
(** [CategoricalTransform.transform]. *)
Variable ct_transform : CT → value → result Factor value.

Record t := {
  factor : Factor;
  _state : State;
  _postprocessor : option (postprocessor Factor CT);
  _expected_levels : list level;
  _default_env : bindings
}.

Definition postprocessor_transform (p : postprocessor Factor CT) (v : value)
  : result Factor value :=
  match p with
  | BoolToCategorical p => _BoolToCategorical.transform p v
  | CategoricalTransform p => ct_transform p v
  end.

(** [CategoricFactorEvaluator.eval]. *)
Definition eval (G : eval_globals) (self : t) (data : bindings) : result Factor array :=
  default_env ← global "default_env" (g_default_env G);
  result ← eval (factor self) (_state self) [data; default_env];
  result ← match _postprocessor self with
           | Some p => postprocessor_transform p result
           | None => Ok result
           end;
  match result with
  | VCategorical c =>
      if negb (levels_eqb (levels c) (_expected_levels self))
      then Raise (CharltonErrorWithOrigin msg_unexpected_levels (factor self))
      else
        _ ← _max_allowed_dim 1 (AInt (int_array c)) (factor self);
        Ok (atleast_2d_column_default (VArray (AInt (int_array c))))
  | VArray _ => Raise (CharltonErrorWithOrigin msg_not_categorical (factor self))
  end.
End CategoricFactorEvaluator.
End CategoricFactorEvaluator.

(** ** [class ColumnBuilder] *)
Module ColumnBuilder.
Section ColumnBuilder.
Context {Factor : Type} `{Countable Factor}.
(** [factor.name()]. *)
Variable name : Factor → string.

Record t := Build_t {
  factors : list Factor;
  numeric_columns : gmap Factor nat;
  categoric_contrasts : gmap Factor ContrastMatrix;
  columns_per_factor : list nat
}.

(** [ColumnBuilder.__init__]. *)
Definition init (factors : list Factor) (numeric_columns : gmap Factor nat)
    (categoric_contrasts : gmap Factor ContrastMatrix) : result Factor t :=
  columns_per_factor ← mapM (fun factor =>
      match categoric_contrasts !! factor with
      | Some contrast => Ok (ncols (contrast_matrix contrast))
      | None => getitem numeric_columns factor
      end) factors;
  Ok (Build_t factors numeric_columns categoric_contrasts columns_per_factor).

(** The piece of a column name one factor contributes (the body of the
    inner loop of [column_names]). *)
Definition name_piece (self : t) (factor : Factor) (column_idx : nat) : result Factor string :=
  match numeric_columns self !! factor with
  | Some n =>
      if decide (1 < n) then Ok (name factor +:+ "[" +:+ pretty column_idx +:+ "]")
      else _ ← assert (bool_decide (column_idx = 0)); Ok (name factor)
  | None =>
      contrast ← getitem (categoric_contrasts self) factor;
      suffix ← list_getitem (column_suffixes contrast) column_idx;
      Ok (name factor +:+ suffix)
  end.

(** [ColumnBuilder.column_names]. *)
Definition column_names (self : t) : result Factor (list string) :=
  match factors self with
  | [] => Ok ["Intercept"]
  | _ =>
      column_names ← mapM (fun column_idxs =>
          name_pieces ← mapM (fun '(factor, column_idx) => name_piece self factor column_idx)
                             (zip (factors self) column_idxs);
          Ok (join ":" name_pieces))
        (odometer_iter (columns_per_factor self));
      _ ← assert (bool_decide (length column_names = prod (columns_per_factor self)));
      Ok column_names
  end.

(** The values a factor has in a chunk: the matrix its evaluator returned,
    of integer indices for a categorical factor and of numbers otherwise. *)
Inductive fvalue :=
| IntArray (a : ndarray Z)
| FloatArray (a : ndarray float).

Definition fvalue_shape (v : fvalue) : list nat :=
  match v with
  | IntArray a => shape a
  | FloatArray a => shape a
  end.

(** One iteration of the inner loop of [build]: the multiplication of
    output column [i] by the column [column_idx] of [factor]. *)
Definition build_step (self : t) (factor_values : gmap Factor fvalue)
    (i : nat) (factor : Factor) (column_idx : nat) (out : matrix) : result Factor matrix :=
  match categoric_contrasts self !! factor with
  | Some contrast =>
      value ← getitem factor_values factor;
      match value with
      | IntArray a =>
          v ← take_rows (contrast_matrix contrast) (items a) column_idx;
          imul_column out i v
      | FloatArray _ => Raise IndexError
      end
  | None =>
      value ← getitem factor_values factor;
      width ← list_getitem (fvalue_shape value) 1;
      expected ← getitem (numeric_columns self) factor;
      _ ← assert (bool_decide (width = expected));
      v ← match value with
          | IntArray a => fmap float_of_Z <$> column a column_idx
          | FloatArray a => column a column_idx
          end;
      imul_column out i v
  end.

Definition try (r : result Factor matrix) (out : matrix) : matrix * option (exn Factor) :=
  match r with
  | Ok out' => (out', None)
  | Raise e => (out, Some e)
  end.

(** [ColumnBuilder.build]: the output matrix as the call leaves it, and
    the exception it raised, if any. *)
Definition build (self : t) (factor_values : gmap Factor fvalue) (out : matrix)
  : matrix * option (exn Factor) :=
  if decide (prod (columns_per_factor self) = ncols out) then
    for_in (enumerate (odometer_iter (columns_per_factor self)))
      (fun '(i, column_idxs) =>
         for_in (zip (factors self) column_idxs)
           (fun '(factor, column_idx) out =>
              try (build_step self factor_values i factor column_idx out) out))
      (fill_ones out)
  else (out, Some AssertionError).
End ColumnBuilder.
End ColumnBuilder.

(** ** [_factors_memorize] *)
Module Memorize.
Section factors_memorize.
Context {Factor State Transforms : Type} `{Countable Factor}.
Context `{FactorProtocol Factor State Transforms}.
(** A fresh state, [{}]. *)
Variable new_state : State.

(** The memorization calls issued to factors, in the order of issue. *)
Inductive call :=
| call_memorize_passes_needed (factor : Factor)
| call_memorize_chunk (factor : Factor) (which_pass : nat) (data : DictStack)
| call_memorize_finish (factor : Factor) (which_pass : nat).

(** The module-level bindings of the names [_factors_memorize] reads
    without binding them. *)
Record globals := {
  g_all_factors : option (list Factor);
  g_factor_passes : option (gmap Factor Z)
}.

(** [spec.py] binds neither name at module level. *)
Definition spec_globals : globals := {| g_all_factors := None; g_factor_passes := None |}.

(** The local variables of [_factors_memorize], and the calls issued so
    far. The set [memorize_needed] is kept in its iteration order. *)
Record locals := Locals {
  factor_states : gmap Factor State;
  memorize_passes : gmap Factor Z;
  memorize_needed : list Factor;
  calls : list call
}.

Definition log (c : call) (s : locals) : locals :=
  Locals (factor_states s) (memorize_passes s) (memorize_needed s) (calls s ++ [c]).

Definition set_state (factor : Factor) (state : State) (s : locals) : locals :=
  Locals (<[factor := state]> (factor_states s)) (memorize_passes s) (memorize_needed s) (calls s).

Definition set_passes (factor : Factor) (passes : Z) (s : locals) : locals :=
  Locals (factor_states s) (<[factor := passes]> (memorize_passes s)) (memorize_needed s) (calls s).

Definition set_needed (needed : list Factor) (s : locals) : locals :=
  Locals (factor_states s) (memorize_passes s) needed (calls s).

(** A statement that may raise, run on the locals. *)
Definition attempt (r : result Factor locals) (s : locals) : locals * option (exn Factor) :=
  match r with
  | Ok s' => (s', None)
  | Raise e => (s, Some e)
  end.

(** A loop over a set that the body may shrink: every step of the
    iterator, the last one included, raises [RuntimeError] when the size
    of the set is no longer what it was when the loop began. *)
Fixpoint for_in_set {A S} (size : S → nat) (n : nat) (l : list A)
    (body : A → S → S * option (exn Factor)) (s : S) : S * option (exn Factor) :=
  if decide (size s = n) then
    match l with
    | [] => (s, None)
    | x :: l' =>
        match body x s with
        | (s', None) => for_in_set size n l' body s'
        | (s', Some e) => (s', Some e)
        end
    end
  else (s, Some RuntimeError).

(** The first loop: a state and a pass count for every factor. *)
Definition setup_body (stateful_transforms : Transforms) (factor : Factor) (s : locals)
  : locals * option (exn Factor) :=
  let s := log (call_memorize_passes_needed factor) s in
  attempt ('(state, which_pass) ← memorize_passes_needed factor new_state stateful_transforms;
           Ok (set_passes factor which_pass (set_state factor state s))) s.

(** The body of the loop over the chunks of one pass. The environment
    [DictStack(data, default_env)] is taken to be the stack of the chunk
    and the default bindings. *)
Definition chunk_body (default_env : bindings) (which_pass : nat) (data : bindings) (s : locals)
  : locals * option (exn Factor) :=
  for_in (memorize_needed s) (fun factor s =>
    match getitem (Factor:=Factor) (factor_states s) factor with
    | Raise e => (s, Some e)
    | Ok state =>
        let s := log (call_memorize_chunk factor which_pass [data; default_env]) s in
        attempt (state ← memorize_chunk factor state which_pass [data; default_env];
                 Ok (set_state factor state s)) s
    end) s.

(** The body of the loop that finishes one pass. *)
Definition finish_body (G : globals) (which_pass : nat) (factor : Factor) (s : locals)
  : locals * option (exn Factor) :=
  match getitem (Factor:=Factor) (factor_states s) factor with
  | Raise e => (s, Some e)
  | Ok state =>
      let s := log (call_memorize_finish factor which_pass) s in
      attempt (state ← memorize_finish factor state which_pass;
               let s := set_state factor state s in
               factor_passes ← global "factor_passes" (g_factor_passes G);
               passes ← getitem factor_passes factor;
               if decide (Z.of_nat which_pass = passes - 1)%Z
               then Ok (set_needed (filter (fun f => f ≠ factor) (memorize_needed s)) s)
               else Ok s) s
  end.

(** The [while memorize_needed] loop; [None] when [fuel] passes do not
    end it. *)
Fixpoint passes_loop (G : globals) (default_env : bindings) (chunks : list bindings)
    (fuel which_pass : nat) (s : locals) : option (locals * option (exn Factor)) :=
  match memorize_needed s with
  | [] => Some (s, None)
  | _ =>
      match fuel with
      | 0 => None
      | S fuel' =>
          match for_in chunks (chunk_body default_env which_pass) s with
          | (s, Some e) => Some (s, Some e)
          | (s, None) =>
              match for_in_set (fun s => length (memorize_needed s)) (length (memorize_needed s))
                      (memorize_needed s) (finish_body G which_pass) s with
              | (s, Some e) => Some (s, Some e)
              | (s, None) => passes_loop G default_env chunks fuel' (S which_pass) s
              end
          end
      end
  end.

(** [_factors_memorize]: the calls it issued, and the factor states it
    returned or the exception it raised. The stream [data_iter_maker()]
    is the list of its chunks. *)
Definition _factors_memorize (G : globals) (fuel : nat) (stateful_transforms : Transforms)
    (default_env : bindings) (factors : list Factor) (data_iter_maker : unit → list bindings)
  : option (list call * result Factor (gmap Factor State)) :=
  let s := Locals ∅ ∅ [] [] in
  match global (Factor:=Factor) "all_factors" (g_all_factors G) with
  | Raise e => Some (calls s, Raise e)
  | Ok all_factors =>
      match for_in all_factors (setup_body stateful_transforms) s with
      | (s, Some e) => Some (calls s, Raise e)
      | (s, None) =>
          match global (Factor:=Factor) "factor_passes" (g_factor_passes G) with
          | Raise e => Some (calls s, Raise e)
          | Ok factor_passes =>
              let needed := filter (fun '(factor, passes) => (0 < passes)%Z)
                                   (map_to_list factor_passes) in
              let s := set_needed needed.*1 s in
              match passes_loop G default_env (data_iter_maker ()) fuel 0 s with
              | None => None
              | Some (s, Some e) => Some (calls s, Raise e)
              | Some (s, None) => Some (calls s, Ok (factor_states s))
              end
          end
      end
  end.
End factors_memorize.
End Memorize.

(** ** [_examine_factor_types] *)
Module Examine.
Section examine_factor_types.
Context {Factor State Transforms : Type} `{Countable Factor}.
Context `{FactorProtocol Factor State Transforms}.
(** [CategoricalTransform] of [charlton.categorical]: its constructor and
    the two methods called here. *)
Context {CT : Type}.
Variable ct_new : CT.
Variable ct_memorize_chunk : CT → array → result Factor CT.
Variable ct_memorize_finish : CT → result Factor CT.

(** The module-level binding of [factor_states], which the function reads
    without binding it. *)
Definition globals := option (gmap Factor State).

(** [spec.py] does not bind the name at module level. *)
Definition spec_globals : globals := None.

(** The local variables of [_examine_factor_types]. *)
Record locals := Locals {
  numeric_column_counts : gmap Factor nat;
  categorical_postprocessors : gmap Factor (postprocessor Factor CT);
  categorical_levels_contrasts : gmap Factor (list level * option ContrastMatrix);
  examine_needed : gset Factor
}.

(** [examine_needed.remove(factor)]: [KeyError] when the factor is not in
    the set. *)
Definition remove (factor : Factor) (s : locals) : result Factor locals :=
  if decide (factor ∈ examine_needed s)
  then Ok (Locals (numeric_column_counts s) (categorical_postprocessors s)
             (categorical_levels_contrasts s) (examine_needed s ∖ {[factor]}))
  else Raise KeyError.

Definition set_numeric (factor : Factor) (n : nat) (s : locals) : locals :=
  Locals (<[factor := n]> (numeric_column_counts s)) (categorical_postprocessors s)
    (categorical_levels_contrasts s) (examine_needed s).

Definition set_postprocessor (factor : Factor) (p : postprocessor Factor CT) (s : locals)
  : locals :=
  Locals (numeric_column_counts s) (<[factor := p]> (categorical_postprocessors s))
    (categorical_levels_contrasts s) (examine_needed s).

Definition set_levels_contrast (factor : Factor) (lc : list level * option ContrastMatrix)
    (s : locals) : locals :=
  Locals (numeric_column_counts s) (categorical_postprocessors s)
    (<[factor := lc]> (categorical_levels_contrasts s)) (examine_needed s).

(** The module-level binding of [_get_numeric_column_count]: the name is
    called in the numeric branch below, and [spec.py] neither defines nor
    imports it. *)
Definition _get_numeric_column_count_binding
  : option (array → Factor → result Factor nat) := None.

(** [processor.memorize_chunk(value)] and [processor.memorize_finish()]:
    a [_BoolToCategorical] has neither method. *)
Definition postprocessor_memorize_chunk (p : postprocessor Factor CT) (value : array)
  : result Factor (postprocessor Factor CT) :=
  match p with
  | BoolToCategorical _ => Raise AttributeError
  | CategoricalTransform p => CategoricalTransform <$> ct_memorize_chunk p value
  end.

Definition postprocessor_memorize_finish (p : postprocessor Factor CT)
  : result Factor (postprocessor Factor CT) :=
  match p with
  | BoolToCategorical _ => Raise AttributeError
  | CategoricalTransform p => CategoricalTransform <$> ct_memorize_finish p
  end.

(** The body of the loop over the factors still to examine, for one
    chunk [data]. *)
Definition examine_factor (G : globals) (data : bindings) (factor : Factor) (s : locals)
  : result Factor locals :=
  factor_states ← global "factor_states" G;
  state ← getitem factor_states factor;
  value ← eval factor state [data];
  s ← match value with
      | VCategorical c => remove factor (set_levels_contrast factor (levels c, contrast c) s)
      | VArray _ => Ok s
      end;
  let value := atleast_2d_column_default value in
  _ ← _max_allowed_dim 2 value factor;
  if is_number value then
    _get_numeric_column_count ← global "_get_numeric_column_count"
                                  _get_numeric_column_count_binding;
    column_count ← _get_numeric_column_count value factor;
    remove factor (set_numeric factor column_count s)
  else if is_bool_kind value then
    _ ← _max_allowed_dim 1 value factor;
    remove factor (set_postprocessor factor (BoolToCategorical {| _BoolToCategorical.factor := factor |}) s)
  else
    _ ← _max_allowed_dim 1 value factor;
    let s := match categorical_postprocessors s !! factor with
             | Some _ => s
             | None => set_postprocessor factor (CategoricalTransform ct_new) s
             end in
    processor ← getitem (categorical_postprocessors s) factor;
    processor ← postprocessor_memorize_chunk processor value;
    Ok (set_postprocessor factor processor s).

(** A loop whose body may raise, on locals that are lost when it does. *)
Fixpoint for_each {A S} (l : list A) (body : A → S → result Factor S) (s : S)
  : result Factor S :=
  match l with
  | [] => Ok s
  | x :: l' => s' ← body x s; for_each l' body s'
  end.

(** The loop over the chunks, left as soon as nothing remains to be
    examined. *)
Fixpoint examine_chunks (G : globals) (chunks : list bindings) (s : locals)
  : result Factor locals :=
  match chunks with
  | [] => Ok s
  | data :: chunks' =>
      if decide (examine_needed s = ∅) then Ok s
      else
        s ← for_each (elements (examine_needed s)) (examine_factor G data) s;
        examine_chunks G chunks' s
  end.

(** [_examine_factor_types]: the three dicts it returns. The stream
    that [data_iter_maker] makes of [args] and [kwargs] is the list of its
    chunks. *)
Definition _examine_factor_types {Args Kwargs : Type} (G : globals) (factors : list Factor)
    (data_iter_maker : Args → Kwargs → list bindings) (args : Args) (kwargs : Kwargs)
  : result Factor (gmap Factor nat * gmap Factor (postprocessor Factor CT)
                   * gmap Factor (list level * option ContrastMatrix)) :=
  s ← examine_chunks G (data_iter_maker args kwargs) (Locals ∅ ∅ ∅ (list_to_set factors));
  finished ← for_each (map_to_list (categorical_postprocessors s))
    (fun '(factor, processor) finished =>
       processor ← postprocessor_memorize_finish processor;
       Ok (<[factor := processor]> finished))
    (categorical_postprocessors s);
  Ok (numeric_column_counts s, finished, categorical_levels_contrasts s).
End examine_factor_types.
End Examine.

(** ** [class ModelMatrixBuilder] *)
Module ModelMatrixBuilder.
Section ModelMatrixBuilder.
Context {Factor Term Evaluator : Type} `{Countable Factor} `{Countable Term}.
(** [factor.name()]. *)
Variable name : Factor → string.

(** [ModelMatrixColumnInfo] (of [charlton.model_matrix]): the column
    names and the two dicts from a term to its span of columns. *)
Record ModelMatrixColumnInfo := {
  column_names : list string;
  term_name_to_columns : gmap Term (nat * nat);
  term_to_columns : gmap Term (nat * nat)
}.

Record t := {
  terms : list Term;
  factor_evaluators : gmap Factor Evaluator;
  term_column_builders : gmap Term (list (@ColumnBuilder.t Factor _ _));
  column_info : ModelMatrixColumnInfo
}.

(** The inner loop of [__init__], over the column builders of a term. *)
Fixpoint builders_loop (column_builders : list (@ColumnBuilder.t Factor _ _))
    (this_count : nat) (column_names : list string) : result Factor (nat * list string) :=
  match column_builders with
  | [] => Ok (this_count, column_names)
  | column_builder :: rest =>
      this_names ← ColumnBuilder.column_names name column_builder;
      builders_loop rest (this_count + length this_names) (column_names ++ this_names)
  end.

(** The first loop of [__init__], over the terms. *)
Fixpoint terms_loop (term_column_builders : gmap Term (list (@ColumnBuilder.t Factor _ _)))
    (terms : list Term) (term_column_count : list nat) (column_names : list string)
  : result Factor (list nat * list string) :=
  match terms with
  | [] => Ok (term_column_count, column_names)
  | term :: rest =>
      column_builders ← getitem term_column_builders term;
      '(this_count, column_names) ← builders_loop column_builders 0 column_names;
      terms_loop term_column_builders rest (term_column_count ++ [this_count]) column_names
  end.

(** [np.cumsum]. *)
Fixpoint cumsum_from (acc : nat) (l : list nat) : list nat :=
  match l with
  | [] => []
  | x :: l' => (acc + x) :: cumsum_from (acc + x) l'
  end.

Definition cumsum (l : list nat) : list nat := cumsum_from 0 l.

(** The second loop of [__init__]: the span of every term. *)
Fixpoint spans_loop (term_column_starts : list nat) (terms : list (nat * Term))
    (term_to_columns : gmap Term (nat * nat)) : result Factor (gmap Term (nat * nat)) :=
  match terms with
  | [] => Ok term_to_columns
  | (i, term) :: rest =>
      start ← list_getitem term_column_starts i;
      stop ← list_getitem term_column_starts (i + 1);
      spans_loop term_column_starts rest (<[term := (start, stop)]> term_to_columns)
  end.

(** [ModelMatrixBuilder.__init__]. *)
Definition init (terms : list Term) (factor_evaluators : gmap Factor Evaluator)
    (term_column_builders : gmap Term (list (@ColumnBuilder.t Factor _ _)))
  : result Factor t :=
  '(term_column_count, column_names) ← terms_loop term_column_builders terms [] [];
  let term_column_starts := ([0] ++ cumsum term_column_count)%list in
  term_to_columns ← spans_loop term_column_starts (enumerate terms) ∅;
  Ok {| terms := terms;
        factor_evaluators := factor_evaluators;
        term_column_builders := term_column_builders;
        column_info := {| column_names := column_names;
                          term_name_to_columns := term_to_columns;
                          term_to_columns := term_to_columns |} |}.
End ModelMatrixBuilder.
End ModelMatrixBuilder.

(** ** [class ModelSpec] *)
Module ModelSpec.
Section ModelSpec.
Context {Factor Desc Builder Chunk Args Kwargs Matrices : Type}.
(** The empty positional and keyword arguments. *)
Variable no_args : Args.
Variable no_kwargs : Kwargs.

(** The module-level binding of [make_model_matrices_incremental], the
    name the two methods call: when there is one, a function of the
    builders, the maker of the chunk stream and the arguments of the
    maker. A chunk stream is the list of the chunks it yields. *)
Definition globals :=
  option (list Builder → (Args → Kwargs → list Chunk) → Args → Kwargs → result Factor Matrices).

(** [spec.py] neither defines nor imports the name. *)
Definition spec_globals : globals := None.

Record t := {
  desc : Desc;
  lhs_builder : Builder;
  rhs_builder : Builder
}.

(** [ModelSpec.make_matrices_incremental]. *)
Definition make_matrices_incremental (G : globals) (self : t)
    (data_iter_maker : Args → Kwargs → list Chunk) (args : Args) (kwargs : Kwargs)
  : result Factor Matrices :=
  make_model_matrices_incremental ← global "make_model_matrices_incremental" G;
  make_model_matrices_incremental [lhs_builder self; rhs_builder self] data_iter_maker
    args kwargs.

(** The generator [data_gen] that [make_matrices] defines. *)
Definition data_gen (data : Chunk) : Args → Kwargs → list Chunk := fun _ _ => [data].

(** [ModelSpec.make_matrices]. *)
Definition make_matrices (G : globals) (self : t) (data : Chunk) : result Factor Matrices :=
  make_matrices_incremental G self (data_gen data) no_args no_kwargs.
End ModelSpec.
End ModelSpec.

(** ** [_make_model_builder] *)
Module MakeModelBuilder.
Section make_model_builder.
Context {Factor Term Subterm NumericFators PP LC : Type} `{Countable Factor}.
(** [term.factors]. *)
Variable term_factors : Term → list Factor.

(** The module-level bindings of the two names that the function reads
    without binding them: the function [_expand_categorical_part], with
    the list that [list(...)] makes of what it yields, and
    [numeric_fators]. *)
Record globals := {
  g_expand_categorical_part : option (Term → NumericFators → result Factor (list Subterm));
  g_numeric_fators : option NumericFators
}.

(** [spec.py] binds neither name at module level. *)
Definition spec_globals : globals :=
  {| g_expand_categorical_part := None; g_numeric_fators := None |}.

(** The bucket of a term: the [frozenset] of those of its factors that
    are keys of [numeric_column_counts]. *)
Definition bucket_of (numeric_column_counts : gmap Factor nat) (term : Term) : gset Factor :=
  list_to_set (filter (fun factor => is_Some (numeric_column_counts !! factor))
                 (term_factors term)).

(** The first loop: [term_buckets.setdefault(bucket, []).append(term)] for
    every term. *)
Definition term_buckets (numeric_column_counts : gmap Factor nat) (terms : list Term)
  : gmap (gset Factor) (list Term) :=
  foldl (fun term_buckets term =>
           let bucket := bucket_of numeric_column_counts term in
           <[bucket := (default [] (term_buckets !! bucket) ++ [term])%list]> term_buckets)
    ∅ terms.

(** [l.sort(key=key)]: a stable sort. *)
Fixpoint insert_by_key {A} (key : A → nat) (x : A) (l : list A) : list A :=
  match l with
  | [] => [x]
  | y :: l' => if decide (key x ≤ key y) then x :: y :: l' else y :: insert_by_key key x l'
  end.

Definition sort_by_key {A} (key : A → nat) (l : list A) : list A :=
  foldr (insert_by_key key) [] l.

(** The body of the loop over the terms of a bucket. The list [expanded]
    is sorted and then read by nothing. *)
Definition expand_term (G : globals) (term : Term) : result Factor unit :=
  _expand_categorical_part ← global "_expand_categorical_part" (g_expand_categorical_part G);
  numeric_fators ← global "numeric_fators" (g_numeric_fators G);
  expanded ← _expand_categorical_part term numeric_fators;
  Ok ().

(** [_make_model_builder]: the function ends without a [return]
    statement, so what it returns is [None]. The buckets are gone through
    in the order of the dict. *)
Definition _make_model_builder (G : globals) (terms : list Term)
    (numeric_column_counts : gmap Factor nat) (categorical_postprocessors : gmap Factor PP)
    (categorical_levels_contrasts : gmap Factor LC) : result Factor unit :=
  Examine.for_each (map_to_list (term_buckets numeric_column_counts terms))
    (fun '(numeric_factors, bucket) _ =>
       Examine.for_each (sort_by_key (fun t => length (term_factors t)) bucket)
         (fun term _ => expand_term G term) ())
    ().
End make_model_builder.
End MakeModelBuilder.

(** ** Test doubles *)

(** [class _MockFactor]: an object (its identity is [mock_id]) with a name,
    which evaluates to the value bound to ["mock"]. It has none of the
    memorization methods. *)
Record _MockFactor := MockFactor { mock_id : nat; _name : string }.

Global Instance _MockFactor_eq_dec : EqDecision _MockFactor.
Proof. solve_decision. Defined.

Global Instance _MockFactor_countable : Countable _MockFactor :=
  inj_countable' (fun f => (mock_id f, _name f)) (fun p => MockFactor p.1 p.2)
    (fun f => match f with MockFactor _ _ => eq_refl end).

Global Instance _MockFactor_protocol : FactorProtocol _MockFactor bindings unit := {|
  name f := _name f;
  memorize_passes_needed _ _ _ := Raise AttributeError;
  memorize_chunk _ _ _ _ := Raise AttributeError;
  memorize_finish _ _ _ := Raise AttributeError;
  eval _ state env := stack_getitem env "mock"
|}.

(** A factor that follows the memorization protocol: it declares
    [passes_declared] passes, and its state counts the memorization calls
    it has received. *)
Record PassFactor := { pass_name : string; passes_declared : Z }.

Global Instance PassFactor_eq_dec : EqDecision PassFactor.
Proof. solve_decision. Defined.

Global Instance PassFactor_countable : Countable PassFactor :=
  inj_countable' (fun f => (pass_name f, passes_declared f))
    (fun p => {| pass_name := p.1; passes_declared := p.2 |})
    (fun f => match f with Build_PassFactor _ _ => eq_refl end).

Global Instance PassFactor_protocol : FactorProtocol PassFactor nat unit := {|
  name f := pass_name f;
  memorize_passes_needed f state _ := Ok (state, passes_declared f);
  memorize_chunk _ state _ _ := Ok (S state);
  memorize_finish _ state _ := Ok (S state);
  eval _ state env := stack_getitem env "mock"
|}.

(** The fixtures of [test_ColumnBuilder]. *)
Module test_ColumnBuilder.
Definition f1 := MockFactor 1 "f1".
Definition f2 := MockFactor 2 "f2".
Definition f3 := MockFactor 3 "f3".

Definition contrast : ContrastMatrix :=
  {| contrast_matrix := Matrix 2 2 [[0; 0.5]; [3; 0]]%float;
     column_suffixes := ["[c1]"; "[c2]"] |}.

Definition numeric_columns : gmap _MockFactor nat := {[ f1 := 1; f3 := 1 ]}.
Definition categoric_contrasts : gmap _MockFactor ContrastMatrix := {[ f2 := contrast ]}.

(** [atleast_2d_column_default] of the three lists of the test. *)
Definition factor_values : gmap _MockFactor ColumnBuilder.fvalue :=
  {[ f1 := ColumnBuilder.IntArray (NDArray [3; 1] [1; 2; 3]%Z);
     f2 := ColumnBuilder.IntArray (NDArray [3; 1] [0; 0; 1]%Z);
     f3 := ColumnBuilder.FloatArray (NDArray [3; 1] [7.5; 2; -12]%float) ]}.

(** The builder that [ColumnBuilder([f1, f2, f3], {f1: 1, f3: 1}, {f2:
    contrast})] constructs. *)
Definition cb : @ColumnBuilder.t _MockFactor _ _ :=
  ColumnBuilder.Build_t [f1; f2; f3] numeric_columns categoric_contrasts [1; 2; 1].

(** The matrix the design document gives for this input. *)
Definition expected : matrix :=
  Matrix 3 2 [[0; 3.75]; [0; 2]; [-108; 0]]%float.
End test_ColumnBuilder.

(** A model of two terms, each an object of its own (a term is known here
    by its identity): the intercept and the interaction of
    [test_ColumnBuilder]. *)
Module test_ModelMatrixBuilder.
Import test_ColumnBuilder.

Definition intercept : nat := 0.
Definition interaction : nat := 1.
Definition terms : list nat := [intercept; interaction].

Definition term_column_builders : gmap nat (list (@ColumnBuilder.t _MockFactor _ _)) :=
  {[ intercept := [ColumnBuilder.Build_t [] ∅ ∅ []];
     interaction := [cb] ]}.

(** The builder that [ModelMatrixBuilder(terms, {}, term_column_builders)]
    constructs. *)
Definition builder : @ModelMatrixBuilder.t _MockFactor nat unit _ _ _ _ :=
  {| ModelMatrixBuilder.terms := terms;
     ModelMatrixBuilder.factor_evaluators := ∅;
     ModelMatrixBuilder.term_column_builders := term_column_builders;
     ModelMatrixBuilder.column_info :=
       {| ModelMatrixBuilder.column_names := ["Intercept"; "f1:f2[c1]:f3"; "f1:f2[c2]:f3"];
          ModelMatrixBuilder.term_name_to_columns := {[ intercept := (0, 1); interaction := (1, 3) ]};
          ModelMatrixBuilder.term_to_columns := {[ intercept := (0, 1); interaction := (1, 3) ]} |} |}.
End test_ModelMatrixBuilder.

(** The fixtures of [test_NumericFactorEvaluator] and of
    [test_CategoricFactorEvaluator]. *)
Module test_evaluators.
Definition f := MockFactor 0 "MOCKMOCK".

Definition nf1 : @NumericFactorEvaluator.t _MockFactor bindings :=
  {| NumericFactorEvaluator.factor := f;
     NumericFactorEvaluator._state := ∅;
     NumericFactorEvaluator._expected_columns := 1;
     NumericFactorEvaluator._default_env := ∅ |}.

(** [{"mock": [1, 2, 3]}]. *)
Definition mock123 : bindings := {[ "mock" := VArray (AInt (NDArray [3] [1; 2; 3]%Z)) ]}.

Definition cf1 {CT} : @CategoricFactorEvaluator.t _MockFactor bindings CT :=
  {| CategoricFactorEvaluator.factor := f;
     CategoricFactorEvaluator._state := ∅;
     CategoricFactorEvaluator._postprocessor := None;
     CategoricFactorEvaluator._expected_levels := [LStr "a"; LStr "b"];
     CategoricFactorEvaluator._default_env := ∅ |}.

(** [Categorical.from_strings(["b", "a", "b"])]. *)
Definition bab : Categorical :=
  {| int_array := NDArray [3] [1; 0; 1]%Z; levels := [LStr "a"; LStr "b"]; contrast := None |}.

Definition mock_bab : bindings := {[ "mock" := VCategorical bab ]}.

(** [{"mock": [True, False]}]. *)
Definition mock_bools : bindings := {[ "mock" := VArray (ABool (NDArray [2] [true; false])) ]}.
End test_evaluators.

(** A factor that declares one memorization pass, and a stream of one
    chunk. *)
Module test_memorize.
Definition one_pass : PassFactor := {| pass_name := "x"; passes_declared := 1 |}.
Definition chunk : bindings := {[ "x" := VArray (AInt (NDArray [2] [1; 2]%Z)) ]}.
Definition data_iter_maker : unit → list bindings := fun _ => [chunk].

(** The two unbound names, bound to the factors and to the pass counts
    that the first loop computes. *)
Definition names_bound : @Memorize.globals PassFactor _ _ :=
  {| Memorize.g_all_factors := Some [one_pass];
     Memorize.g_factor_passes := Some {[ one_pass := 1%Z ]} |}.
End test_memorize.

(** A term list that names the intercept term of [test_ModelMatrixBuilder]
    twice, before and after the interaction. *)
Module test_repeated_terms.
Import test_ModelMatrixBuilder.

Definition terms : list nat := [intercept; interaction; intercept].

(** The builder that [ModelMatrixBuilder(terms, {}, term_column_builders)]
    constructs. *)
Definition builder : @ModelMatrixBuilder.t _MockFactor nat unit _ _ _ _ :=
  {| ModelMatrixBuilder.terms := terms;
     ModelMatrixBuilder.factor_evaluators := ∅;
     ModelMatrixBuilder.term_column_builders := term_column_builders;
     ModelMatrixBuilder.column_info :=
       {| ModelMatrixBuilder.column_names :=
            ["Intercept"; "f1:f2[c1]:f3"; "f1:f2[c2]:f3"; "Intercept"];
          ModelMatrixBuilder.term_name_to_columns := {[ intercept := (3, 4); interaction := (1, 3) ]};
          ModelMatrixBuilder.term_to_columns := {[ intercept := (3, 4); interaction := (1, 3) ]} |} |}.
End test_repeated_terms.

(** [a == b] on 2-dimensional [float64] arrays of one shape, all entries
    taken together ([(a == b).all()]). *)
Definition matrix_eqb (a b : matrix) : bool :=
  bool_decide (nrows a = nrows b) && bool_decide (ncols a = ncols b)
  && bool_decide (length (rows a) = length (rows b))
  && forallb (fun '(r, r') => bool_decide (length r = length r')
                              && forallb (fun '(x, y) => PrimFloat.eqb x y) (zip r r'))
       (zip (rows a) (rows b)).

(** * Properties *)

(** ** The [result] monad and the loops *)
Section result_facts.
Context {Factor A B : Type}.
Implicit Types (f : A → result Factor B) (l : list A) (k : list B).

Lemma mapM_Ok_cons f x l k' :
  mapM f (x :: l) = Ok k' ↔ ∃ y k, f x = Ok y ∧ mapM f l = Ok k ∧ k' = y :: k.
Proof.
  cbn. destruct (f x) as [y|e]; cbn.
  - destruct (mapM f l) as [k|e]; cbn.
    + split; [intros [= <-]; eauto | intros (? & ? & [= <-] & [= <-] & ->); done].
    + split; [done | intros (? & ? & _ & [=] & _)].
  - split; [done | intros (? & ? & [=] & _)].
Qed.

Lemma mapM_Ok_Forall2 f l k :
  mapM f l = Ok k ↔ Forall2 (fun x y => f x = Ok y) l k.
Proof.
  revert k. induction l as [|x l IH]; intros k.
  - cbn. split; [intros [= <-]; constructor | by inversion 1].
  - rewrite mapM_Ok_cons. split.
    + intros (y & k0 & Hy & Hk & ->). constructor; [done | by apply IH].
    + inversion 1 as [|? y ? k0 Hy Hk]; subst. exists y, k0. by rewrite IH.
Qed.

Lemma mapM_Ok_length f l k : mapM f l = Ok k → length k = length l.
Proof. rewrite mapM_Ok_Forall2. intros Hk. symmetry. by eapply Forall2_length. Qed.

Lemma mapM_Ok_exists f l :
  Forall (fun x => ∃ y, f x = Ok y) l → ∃ k, mapM f l = Ok k.
Proof.
  induction 1 as [|x l [y Hy] _ [k Hk]]; [by exists [] |].
  exists (y :: k). apply mapM_Ok_cons. eauto.
Qed.
End result_facts.

(** ** The odometer *)
Section odometer_facts.
Lemma length_bind_const {A B} (f : A → list B) (l : list A) (n : nat) :
  (∀ x, length (f x) = n) → length (l ≫= f) = length l * n.
Proof.
  intros Hf. induction l as [|x l IH]; [done |].
  cbn. rewrite length_app, Hf, IH. done.
Qed.

(** The odometer yields as many combinations as the product of the
    radices. *)
Lemma length_odometer_iter (maximums : list nat) :
  length (odometer_iter maximums) = prod maximums.
Proof.
  induction maximums as [|m rest IH]; [done |].
  cbn [odometer_iter prod foldr].
  rewrite (length_bind_const _ _ (prod rest)), length_seq; [done |].
  intros idx. by rewrite length_fmap.
Qed.

(** Every combination has one index per position, below the radix of
    the position. *)
Lemma odometer_iter_bound (maximums idxs : list nat) :
  idxs ∈ odometer_iter maximums → Forall2 lt idxs maximums.
Proof.
  revert idxs. induction maximums as [|m rest IH]; intros idxs; cbn.
  - intros ->%list_elem_of_singleton. constructor.
  - intros (idx & (tl & -> & Htl)%list_elem_of_fmap & Hidx%elem_of_seq)%list_elem_of_bind.
    constructor; [lia | by apply IH].
Qed.
End odometer_facts.

(** ** [ColumnBuilder] *)
Section ColumnBuilder_facts.
Context {Factor : Type} `{Countable Factor}.
Variable name : Factor → string.
Implicit Types (factors : list Factor) (numeric_columns : gmap Factor nat).
Implicit Types (categoric_contrasts : gmap Factor ContrastMatrix).
Implicit Types (self : @ColumnBuilder.t Factor _ _).

(** The column width of a factor, in the words of the design document:
    the column count of the contrast matrix for a categorical factor, the
    numeric column count otherwise. *)
Definition factor_width numeric_columns categoric_contrasts (factor : Factor) : option nat :=
  match categoric_contrasts !! factor with
  | Some contrast => Some (ncols (contrast_matrix contrast))
  | None => numeric_columns !! factor
  end.

(** The contract of a column builder's input (design document, 3 and
    4.4): a factor of the term is numeric or categorical, not both, and a
    contrast has one name suffix per column of its matrix. *)
Definition well_formed factors numeric_columns categoric_contrasts : Prop :=
  ∀ factor contrast, factor ∈ factors → categoric_contrasts !! factor = Some contrast →
    numeric_columns !! factor = None
    ∧ length (column_suffixes contrast) = ncols (contrast_matrix contrast).

Lemma init_Ok factors numeric_columns categoric_contrasts self :
  ColumnBuilder.init factors numeric_columns categoric_contrasts = Ok self →
  ColumnBuilder.factors self = factors
  ∧ ColumnBuilder.numeric_columns self = numeric_columns
  ∧ ColumnBuilder.categoric_contrasts self = categoric_contrasts
  ∧ Forall2 (fun factor width =>
               factor_width numeric_columns categoric_contrasts factor = Some width)
      factors (ColumnBuilder.columns_per_factor self).
Proof.
  unfold ColumnBuilder.init. intros Hinit.
  destruct (mapM _ factors) as [widths|] eqn:Hwidths; [|done].
  injection Hinit as <-. cbn. split_and!; try done.
  apply mapM_Ok_Forall2 in Hwidths.
  eapply Forall2_impl; [exact Hwidths |].
  intros factor width. unfold factor_width, getitem. cbn.
  destruct (categoric_contrasts !! factor); [by intros [= ->] |].
  destruct (numeric_columns !! factor); by intros [= ->].
Qed.

(** A name piece exists for every index below the width of a factor of a
    well-formed builder. *)
Lemma name_piece_Ok self factor width column_idx :
  well_formed (ColumnBuilder.factors self) (ColumnBuilder.numeric_columns self)
    (ColumnBuilder.categoric_contrasts self) →
  factor ∈ ColumnBuilder.factors self →
  factor_width (ColumnBuilder.numeric_columns self)
    (ColumnBuilder.categoric_contrasts self) factor = Some width →
  column_idx < width →
  ∃ piece, ColumnBuilder.name_piece name self factor column_idx = Ok piece.
Proof.
  intros Hwf Hin Hwidth Hidx. unfold ColumnBuilder.name_piece, factor_width in *.
  destruct (ColumnBuilder.categoric_contrasts self !! factor) as [contrast|] eqn:Hc.
  - destruct (Hwf factor contrast Hin Hc) as [-> Hsuffixes].
    injection Hwidth as <-. unfold getitem. rewrite Hc. cbn.
    destruct (lookup_lt_is_Some_2 (column_suffixes contrast) column_idx) as [suffix Hs];
      [lia |].
    unfold list_getitem. rewrite Hs. cbn. eauto.
  - rewrite Hwidth. destruct (decide (1 < width)); [eauto |].
    assert (column_idx = 0) as -> by lia. cbn. eauto.
Qed.

Lemma column_names_empty self :
  ColumnBuilder.factors self = [] → ColumnBuilder.column_names name self = Ok ["Intercept"].
Proof. unfold ColumnBuilder.column_names. by intros ->. Qed.

(** When [column_names] returns for a term with factors, its last
    assertion has held. *)
Lemma column_names_Ok_length self names :
  ColumnBuilder.factors self ≠ [] →
  ColumnBuilder.column_names name self = Ok names →
  length names = prod (ColumnBuilder.columns_per_factor self).
Proof.
  unfold ColumnBuilder.column_names. destruct (ColumnBuilder.factors self); [done |].
  intros _. destruct (mapM _ _) as [names'|]; [|done]. cbn.
  case_bool_decide; cbn; [|done]. by intros [= <-].
Qed.

Lemma column_names_Ok self :
  well_formed (ColumnBuilder.factors self) (ColumnBuilder.numeric_columns self)
    (ColumnBuilder.categoric_contrasts self) →
  Forall2 (fun factor width =>
             factor_width (ColumnBuilder.numeric_columns self)
               (ColumnBuilder.categoric_contrasts self) factor = Some width)
    (ColumnBuilder.factors self) (ColumnBuilder.columns_per_factor self) →
  ∃ names, ColumnBuilder.column_names name self = Ok names.
Proof.
  intros Hwf Hwidths. unfold ColumnBuilder.column_names.
  destruct (ColumnBuilder.factors self) as [|factor0 factors0] eqn:Hfactors; [eauto |].
  rewrite <- Hfactors in *. clear Hfactors factor0 factors0.
  match goal with
  | |- context [mapM ?f ?l] => destruct (mapM_Ok_exists f l) as [names Hnames]
  end.
  - apply Forall_forall. intros column_idxs Hidxs%odometer_iter_bound.
    match goal with
    | |- context [mapM ?f ?l] => destruct (mapM_Ok_exists f l) as [pieces Hpieces]
    end.
    + apply Forall_forall. intros [factor column_idx] Hzip.
      apply list_elem_of_lookup in Hzip as [i Hi].
      apply lookup_zip_with_Some in Hi as (factor' & idx' & [= <- <-] & Hf & Hidx).
      destruct (Forall2_lookup_l _ _ _ _ _ Hwidths Hf) as (width & Hw & Hwidth).
      eapply name_piece_Ok; eauto.
      * by eapply list_elem_of_lookup_2.
      * by eapply (Forall2_lookup_lr _ _ _ _ _ _ Hidxs).
    + rewrite Hpieces. cbn. eauto.
  - rewrite Hnames. cbn.
    apply mapM_Ok_length in Hnames. rewrite length_odometer_iter in Hnames.
    rewrite bool_decide_eq_true_2 by done. cbn. eauto.
Qed.

(** C2. Whenever [ColumnBuilder(factors, numeric_columns,
    categoric_contrasts)] is constructed, [columns_per_factor] holds the
    width of every factor (the column count of its contrast matrix when
    it is categorical, its numeric column count otherwise); for an empty
    factor list [column_names()] is exactly [["Intercept"]]; for a
    non-empty one whose factors are each numeric or categorical (not
    both) with one suffix per contrast column, [column_names()] returns,
    and the number of names is the product of the widths. Whatever the
    input, a list that [column_names()] returns for a non-empty term has
    that length. *)
Theorem column_names_length factors numeric_columns categoric_contrasts self :
  ColumnBuilder.init factors numeric_columns categoric_contrasts = Ok self →
  ∃ widths,
    Forall2 (fun factor width =>
               factor_width numeric_columns categoric_contrasts factor = Some width)
      factors widths
    ∧ ColumnBuilder.columns_per_factor self = widths
    ∧ (factors = [] → ColumnBuilder.column_names name self = Ok ["Intercept"])
    ∧ (factors ≠ [] → ∀ names, ColumnBuilder.column_names name self = Ok names →
         length names = prod widths)
    ∧ (factors ≠ [] → well_formed factors numeric_columns categoric_contrasts →
         ∃ names, ColumnBuilder.column_names name self = Ok names
                  ∧ length names = prod widths).
Proof.
  intros (Hf & Hn & Hc & Hwidths)%init_Ok.
  exists (ColumnBuilder.columns_per_factor self). split_and!; [done | done | | |].
  - intros ->. by apply column_names_empty.
  - intros Hne names. apply column_names_Ok_length. by rewrite Hf.
  - intros Hne Hwf. destruct (column_names_Ok self) as [names Hnames].
    + by rewrite Hf, Hn, Hc.
    + by rewrite Hf, Hn, Hc.
    + exists names. split; [done |]. apply column_names_Ok_length; [by rewrite Hf | done].
Qed.
End ColumnBuilder_facts.

Section ColumnBuilder_build_facts.
Context {Factor : Type} `{Countable Factor}.
Implicit Types (self : @ColumnBuilder.t Factor _ _) (out : matrix).
Implicit Types (factor_values : gmap Factor (@ColumnBuilder.fvalue)).


End ColumnBuilder_build_facts.


(** C1. On the input of [test_ColumnBuilder] (factors [f1], [f2], [f3];
    [f1] and [f3] numeric of width 1, [f2] categorical with the contrast
    matrix [[0, 0.5], [3, 0]] and the suffixes "[c1]", "[c2]") the builder
    is constructed, [column_names()] returns "f1:f2[c1]:f3" and
    "f1:f2[c2]:f3", and [build] on [f1 = [1, 2, 3]], [f2 = [0, 0, 1]],
    [f3 = [7.5, 2, -12]] and any output matrix of 3 rows and 2 columns
    returns and leaves [[0, 3.75], [0, 2], [-108, 0]] in it (the last entry
    is the float zero of negative sign, which [==] does not tell from 0). *)
Theorem test_ColumnBuilder_names_and_values out :
  nrows out = 3 → ncols out = 2 →
  ColumnBuilder.init [test_ColumnBuilder.f1; test_ColumnBuilder.f2; test_ColumnBuilder.f3]
    test_ColumnBuilder.numeric_columns test_ColumnBuilder.categoric_contrasts
  = Ok test_ColumnBuilder.cb
  ∧ ColumnBuilder.column_names name test_ColumnBuilder.cb
    = Ok ["f1:f2[c1]:f3"; "f1:f2[c2]:f3"]
  ∧ ColumnBuilder.build test_ColumnBuilder.cb test_ColumnBuilder.factor_values out
    = (Matrix 3 2 [[0; 3.75]; [0; 2]; [-108; -0]]%float, None)
  ∧ matrix_eqb (ColumnBuilder.build test_ColumnBuilder.cb test_ColumnBuilder.factor_values out).1
      test_ColumnBuilder.expected = true.
Proof.
  destruct out as [n c r]. cbn [nrows ncols]. intros -> ->.
  split_and!; [reflexivity | vm_compute; reflexivity ..].
Qed.

(** C1, on an output matrix that holds other numbers. *)
Lemma test_ColumnBuilder_names_and_values_witness :
  let out := Matrix 3 2 [[4; 5]; [6; 7]; [8; 9]]%float in
  ColumnBuilder.init [test_ColumnBuilder.f1; test_ColumnBuilder.f2; test_ColumnBuilder.f3]
    test_ColumnBuilder.numeric_columns test_ColumnBuilder.categoric_contrasts
  = Ok test_ColumnBuilder.cb
  ∧ ColumnBuilder.column_names name test_ColumnBuilder.cb
    = Ok ["f1:f2[c1]:f3"; "f1:f2[c2]:f3"]
  ∧ ColumnBuilder.build test_ColumnBuilder.cb test_ColumnBuilder.factor_values out
    = (Matrix 3 2 [[0; 3.75]; [0; 2]; [-108; -0]]%float, None)
  ∧ matrix_eqb (ColumnBuilder.build test_ColumnBuilder.cb test_ColumnBuilder.factor_values out).1
      test_ColumnBuilder.expected = true.
Proof.
  intros out. apply (test_ColumnBuilder_names_and_values out); reflexivity.
Defined.

(** C2, on the builder of [test_ColumnBuilder]: its input is well formed,
    and [column_names()] returns as many names as the product of the
    widths 1, 2 and 1. *)
Lemma column_names_length_witness :
  ∃ names,
    ColumnBuilder.column_names name test_ColumnBuilder.cb = Ok names
    ∧ length names = prod [1; 2; 1].
Proof.
  destruct (column_names_length name
              [test_ColumnBuilder.f1; test_ColumnBuilder.f2; test_ColumnBuilder.f3]
              test_ColumnBuilder.numeric_columns test_ColumnBuilder.categoric_contrasts
              test_ColumnBuilder.cb eq_refl)
    as (widths & _ & Hcpf & _ & _ & Hnames).
  destruct Hnames as (names & Hnames & Hlength); [discriminate | |].
  - intros factor contrast Hin Hcontrast.
    repeat (apply elem_of_cons in Hin as [->|Hin]); [.. | by apply elem_of_nil in Hin];
      vm_compute in Hcontrast; [discriminate | | discriminate].
    injection Hcontrast as <-. split; reflexivity.
  - exists names. split; [exact Hnames |]. rewrite <- Hcpf in Hlength. exact Hlength.
Defined.

(** ** [ModelMatrixBuilder] *)
Section ModelMatrixBuilder_facts.
Context {Factor Term Evaluator : Type} `{Countable Factor} `{Countable Term}.
Variable name : Factor → string.
Implicit Types (terms : list Term) (builders : list (@ColumnBuilder.t Factor _ _)).
Implicit Types (term_column_builders : gmap Term (list (@ColumnBuilder.t Factor _ _))).

(** The names a term contributes: those of its column builders, in order. *)
Definition term_names term_column_builders (term : Term) (names : list string) : Prop :=
  ∃ builders per_builder,
    term_column_builders !! term = Some builders
    ∧ mapM (ColumnBuilder.column_names name) builders = Ok per_builder
    ∧ names = mjoin per_builder.

Lemma builders_loop_Ok builders this_count column_names this_count' column_names' :
  ModelMatrixBuilder.builders_loop name builders this_count column_names
    = Ok (this_count', column_names') →
  ∃ per_builder,
    mapM (ColumnBuilder.column_names name) builders = Ok per_builder
    ∧ this_count' = this_count + length (mjoin per_builder)
    ∧ column_names' = (column_names ++ mjoin per_builder)%list.
Proof.
  revert this_count column_names this_count' column_names'.
  induction builders as [|builder builders IH];
    intros this_count column_names this_count' column_names'; cbn.
  - intros [= <- <-]. exists []. cbn. split_and!; [done | lia | by rewrite app_nil_r].
  - destruct (ColumnBuilder.column_names name builder) as [this_names|] eqn:Hnames;
      cbn; [|done].
    intros Hrest. apply IH in Hrest as (per_builder & Hper & -> & ->).
    exists (this_names :: per_builder).
    change (mjoin (this_names :: per_builder)) with (this_names ++ mjoin per_builder)%list.
    split_and!.
    + by rewrite Hper.
    + rewrite length_app. lia.
    + by rewrite app_assoc.
Qed.

Lemma terms_loop_Ok term_column_builders terms counts column_names counts' column_names' :
  ModelMatrixBuilder.terms_loop name term_column_builders terms counts column_names
    = Ok (counts', column_names') →
  ∃ per_term,
    Forall2 (term_names term_column_builders) terms per_term
    ∧ counts' = (counts ++ (length <$> per_term))%list
    ∧ column_names' = (column_names ++ mjoin per_term)%list.
Proof.
  revert counts column_names counts' column_names'.
  induction terms as [|term terms IH]; intros counts column_names counts' column_names'; cbn.
  - intros [= <- <-]. exists []. cbn. split_and!; [constructor | |]; by rewrite app_nil_r.
  - unfold getitem at 1.
    destruct (term_column_builders !! term) as [builders|] eqn:Hbuilders; cbn; [|done].
    destruct (ModelMatrixBuilder.builders_loop name builders 0 column_names)
      as [[this_count names1]|] eqn:Hloop; cbn; [|done].
    apply builders_loop_Ok in Hloop as (per_builder & Hper & -> & ->).
    intros (per_term & Hterms & -> & ->)%IH.
    exists (mjoin per_builder :: per_term).
    change (mjoin (mjoin per_builder :: per_term))
      with (mjoin per_builder ++ mjoin per_term)%list.
    rewrite fmap_cons. split_and!.
    + constructor; [|done]. by exists builders, per_builder.
    + by rewrite <- app_assoc.
    + by rewrite <- app_assoc.
Qed.

(** [np.cumsum]: the entry of index [i] is the sum of the first [i + 1]
    entries. *)
Lemma cumsum_from_lookup acc (l : list nat) i :
  i < length l →
  ModelMatrixBuilder.cumsum_from acc l !! i = Some (acc + sum_list (take (S i) l)).
Proof.
  revert acc i. induction l as [|x l IH]; intros acc i Hi; cbn in *; [lia |].
  destruct i as [|i]; cbn.
  - rewrite take_0. cbn. f_equal. lia.
  - rewrite IH by lia. cbn. f_equal. lia.
Qed.

Lemma length_cumsum_from acc (l : list nat) :
  length (ModelMatrixBuilder.cumsum_from acc l) = length l.
Proof. revert acc. induction l as [|x l IH]; intros acc; cbn; [done | by rewrite IH]. Qed.

(** The column starts: the entry of index [i] is the sum of the first [i]
    counts. *)
Lemma starts_lookup (counts : list nat) i :
  i ≤ length counts →
  (0 :: ModelMatrixBuilder.cumsum counts) !! i = Some (sum_list (take i counts)).
Proof.
  destruct i as [|i]; intros Hi; cbn; [done |].
  unfold ModelMatrixBuilder.cumsum. by rewrite cumsum_from_lookup by lia.
Qed.

Lemma sum_list_take_S (l : list nat) i x :
  l !! i = Some x → sum_list (take (S i) l) = sum_list (take i l) + x.
Proof.
  revert i. induction l as [|y l IH]; intros [|i]; cbn; try done.
  - intros [= ->]. rewrite take_0. cbn. lia.
  - intros Hx%IH. cbn in Hx. lia.
Qed.

(** The names of the term of index [i] stand in the joined list from the
    sum of the earlier counts on. *)
Lemma join_take_drop (ls : list (list string)) i names :
  ls !! i = Some names →
  take (length names) (drop (sum_list (take i (length <$> ls))) (mjoin ls)) = names.
Proof.
  revert i. induction ls as [|l ls IH]; intros [|i] Hi; try done.
  - injection Hi as ->. rewrite take_0.
    change (mjoin (names :: ls)) with (names ++ mjoin ls)%list.
    change (drop (sum_list []) (names ++ mjoin ls)%list) with (names ++ mjoin ls)%list.
    apply take_app_length.
  - change (mjoin (l :: ls)) with (l ++ mjoin ls)%list.
    rewrite fmap_cons, firstn_cons.
    change (sum_list (length l :: take i (length <$> ls)))
      with (length l + sum_list (take i (length <$> ls))).
    rewrite drop_app_add'; [by apply IH | done].
Qed.

(** The second loop: with distinct terms, the dict holds the span of every
    term of the list and is otherwise left as it was. *)
Lemma spans_loop_Ok (starts : list nat) (l : list (nat * Term))
    (spans spans' : gmap Term (nat * nat)) :
  ModelMatrixBuilder.spans_loop (Factor:=Factor) starts l spans = Ok spans' →
  NoDup l.*2 →
  (∀ i term, (i, term) ∈ l →
     ∃ start stop, starts !! i = Some start ∧ starts !! (i + 1) = Some stop
                   ∧ spans' !! term = Some (start, stop))
  ∧ (∀ term, term ∉ l.*2 → spans' !! term = spans !! term).
Proof.
  revert spans. induction l as [|[i term] l IH]; intros spans; cbn.
  - intros [= <-] _. split; [by intros ? ? ?%elem_of_nil | done].
  - unfold list_getitem.
    destruct (starts !! i) as [start|] eqn:Hstart; cbn; [|done].
    destruct (starts !! (i + 1)) as [stop|] eqn:Hstop; cbn; [|done].
    intros Hloop [Hnotin Hnodup]%NoDup_cons.
    destruct (IH _ Hloop Hnodup) as [Hin Hout]. split.
    + intros j term' [[= -> ->]|Hj]%elem_of_cons.
      * exists start, stop. split_and!; [done | done |].
        rewrite Hout by done. apply lookup_insert_eq.
      * by apply Hin.
    + intros term' [Hne Hnotin']%not_elem_of_cons.
      rewrite Hout by done. by apply lookup_insert_ne.
Qed.

Lemma enumerate_lookup {A} (l : list A) i x : (i, x) ∈ enumerate l ↔ l !! i = Some x.
Proof.
  unfold enumerate. rewrite list_elem_of_lookup. split.
  - intros [j (i' & x' & [= <- <-] & Hi & Hx)%lookup_zip_with_Some].
    apply lookup_seq in Hi as [-> _]. done.
  - intros Hx. exists i. apply lookup_zip_with_Some. exists i, x. split_and!; [done | | done].
    apply lookup_seq. split; [done |]. by eapply lookup_lt_Some.
Qed.

Lemma enumerate_snd {A} (l : list A) : (enumerate l).*2 = l.
Proof. unfold enumerate. apply snd_zip. by rewrite length_seq. Qed.

(** C8. The column info that [ModelMatrixBuilder(terms, factor_evaluators,
    term_column_builders)] constructs for distinct terms: there is a
    sequence of column starts, one more than there are terms, that begins
    at 0 and ends at the number of column names, such that the term of
    index [i] is mapped to the half-open span from the start of index [i]
    to the start of index [i + 1] (so the spans are contiguous, do not
    overlap, stand in term order and cover the columns from 0 to the
    total); the length of the span is the sum of the name counts of the
    column builders of the term, the names of the columns of the span are
    the names of these builders in order, and no other term has a span. *)
Theorem column_info_spans terms (factor_evaluators : gmap Factor Evaluator)
    term_column_builders self :
  ModelMatrixBuilder.init name terms factor_evaluators term_column_builders = Ok self →
  NoDup terms →
  let info := ModelMatrixBuilder.column_info self in
  ∃ starts : list nat,
    length starts = S (length terms)
    ∧ starts !! 0 = Some 0
    ∧ starts !! length terms = Some (length (ModelMatrixBuilder.column_names info))
    ∧ (∀ i term, terms !! i = Some term →
         ∃ start stop builders per_builder,
           starts !! i = Some start
           ∧ starts !! S i = Some stop
           ∧ ModelMatrixBuilder.term_to_columns info !! term = Some (start, stop)
           ∧ start ≤ stop
           ∧ term_column_builders !! term = Some builders
           ∧ mapM (ColumnBuilder.column_names name) builders = Ok per_builder
           ∧ stop - start = sum_list (length <$> per_builder)
           ∧ take (stop - start) (drop start (ModelMatrixBuilder.column_names info))
             = mjoin per_builder)
    ∧ (∀ term, term ∉ terms → ModelMatrixBuilder.term_to_columns info !! term = None).
Proof.
  unfold ModelMatrixBuilder.init. intros Hinit Hnodup.
  destruct (ModelMatrixBuilder.terms_loop name term_column_builders terms [] [])
    as [[counts names]|] eqn:Hterms; cbn in Hinit; [|done].
  apply terms_loop_Ok in Hterms as (per_term & Hper & -> & ->). cbn in Hinit.
  destruct (ModelMatrixBuilder.spans_loop _ _ _) as [spans|] eqn:Hspans; cbn in Hinit; [|done].
  injection Hinit as <-. cbn.
  apply spans_loop_Ok in Hspans as [Hin Hout]; [|by rewrite enumerate_snd].
  pose proof (Forall2_length _ _ _ Hper) as Hlen.
  exists (0 :: ModelMatrixBuilder.cumsum (length <$> per_term)). split_and!.
  - cbn. unfold ModelMatrixBuilder.cumsum. by rewrite length_cumsum_from, length_fmap, Hlen.
  - done.
  - rewrite starts_lookup by (rewrite length_fmap; lia).
    rewrite take_ge by (rewrite length_fmap; lia). by rewrite length_join.
  - intros i term Hterm.
    destruct (Forall2_lookup_l _ _ _ _ _ Hper Hterm)
      as (tnames & Htnames & builders & per_builder & Hbuilders & Hnames & ->).
    destruct (Hin i term) as (start & stop & Hstart & Hstop & Hspan);
      [by apply enumerate_lookup |].
    assert (i < length per_term) as Hi by (by eapply lookup_lt_Some).
    rewrite starts_lookup in Hstart by (rewrite length_fmap; lia).
    replace (i + 1) with (S i) in Hstop by lia.
    rewrite starts_lookup in Hstop by (rewrite length_fmap; lia).
    assert ((length <$> per_term) !! i = Some (length (mjoin per_builder))) as Hcount
      by (by rewrite list_lookup_fmap, Htnames).
    rewrite (sum_list_take_S _ i _ Hcount) in Hstop.
    injection Hstart as <-. injection Hstop as <-.
    exists (sum_list (take i (length <$> per_term))),
      (sum_list (take i (length <$> per_term)) + length (mjoin per_builder)),
      builders, per_builder.
    split_and!; try done.
    + by rewrite starts_lookup by (rewrite length_fmap; lia).
    + rewrite starts_lookup by (rewrite length_fmap; lia).
      by rewrite (sum_list_take_S _ i _ Hcount).
    + lia.
    + rewrite <- length_join. lia.
    + replace (_ + _ - _) with (length (mjoin per_builder)) by lia.
      by apply join_take_drop.
  - intros term Hterm. rewrite Hout by (by rewrite enumerate_snd). done.
Qed.
End ModelMatrixBuilder_facts.

(** C8, on the intercept term and the term of [test_ColumnBuilder]: the
    names are "Intercept", "f1:f2[c1]:f3" and "f1:f2[c2]:f3", and the spans
    are (0, 1) and (1, 3). *)
Lemma column_info_spans_witness :
  let info := ModelMatrixBuilder.column_info test_ModelMatrixBuilder.builder in
  ∃ starts : list nat,
    length starts = S (length test_ModelMatrixBuilder.terms)
    ∧ starts !! 0 = Some 0
    ∧ starts !! length test_ModelMatrixBuilder.terms
      = Some (length (ModelMatrixBuilder.column_names info))
    ∧ (∀ i term, test_ModelMatrixBuilder.terms !! i = Some term →
         ∃ start stop builders per_builder,
           starts !! i = Some start
           ∧ starts !! S i = Some stop
           ∧ ModelMatrixBuilder.term_to_columns info !! term = Some (start, stop)
           ∧ start ≤ stop
           ∧ test_ModelMatrixBuilder.term_column_builders !! term = Some builders
           ∧ mapM (ColumnBuilder.column_names name) builders = Ok per_builder
           ∧ stop - start = sum_list (length <$> per_builder)
           ∧ take (stop - start) (drop start (ModelMatrixBuilder.column_names info))
             = mjoin per_builder)
    ∧ (∀ term, term ∉ test_ModelMatrixBuilder.terms →
         ModelMatrixBuilder.term_to_columns info !! term = None).
Proof.
  apply (column_info_spans name test_ModelMatrixBuilder.terms ∅
           test_ModelMatrixBuilder.term_column_builders test_ModelMatrixBuilder.builder).
  - reflexivity.
  - apply NoDup_cons. split; [|apply NoDup_singleton].
    intros Hin%list_elem_of_singleton. discriminate Hin.
Defined.

(** C8 as the design document states it, for every builder, fails on a
    term list that names a term twice: [ModelMatrixBuilder([intercept,
    interaction, intercept], {}, term_column_builders)] is constructed,
    its column info has four column names, and column 0 (the "Intercept"
    of the first position) lies in the span of no term, so the union of
    the spans is not the range of the columns. *)
Lemma column_info_spans_repeated_term :
  let info := ModelMatrixBuilder.column_info test_repeated_terms.builder in
  ModelMatrixBuilder.init name test_repeated_terms.terms ∅
    test_ModelMatrixBuilder.term_column_builders
  = Ok test_repeated_terms.builder
  ∧ length (ModelMatrixBuilder.column_names info) = 4
  ∧ ¬ ∃ term start stop,
        ModelMatrixBuilder.term_to_columns info !! term = Some (start, stop)
        ∧ start ≤ 0 < stop.
Proof.
  cbn zeta. split_and!; [reflexivity | reflexivity |].
  intros (term & start & stop & Hspan & Hin). cbn in Hspan.
  apply lookup_insert_Some in Hspan as [[_ [= <- <-]]|[_ Hspan]]; [lia |].
  apply lookup_singleton_Some in Hspan as [_ [= <- <-]]. lia.
Qed.

(** ** [ModelSpec] *)

(** C9. Both methods of [ModelSpec] end in a call of
    [make_model_matrices_incremental], a name that [spec.py] neither
    defines nor imports: as the module has it, every call of
    [make_matrices] and of [make_matrices_incremental] raises [NameError],
    whatever the builders and the data, and drives no builder. The
    delegation is as the design document has it: whatever the name is
    bound to, [make_matrices(data)] has the outcome of
    [make_matrices_incremental] on the generator [data_gen], whose stream
    is the single chunk [data]; and were the name bound to a function, the
    incremental path would be that function on the left-hand-side and the
    right-hand-side builder, in this order, and the stream. *)
Theorem make_matrices_NameError {Factor Desc Builder Chunk Args Kwargs Matrices : Type}
    (no_args : Args) (no_kwargs : Kwargs) :
  let G : @ModelSpec.globals Factor Builder Chunk Args Kwargs Matrices :=
    ModelSpec.spec_globals in
  (∀ (self : @ModelSpec.t Desc Builder) (data : Chunk),
     ModelSpec.make_matrices no_args no_kwargs G self data
     = Raise (NameError "make_model_matrices_incremental"))
  ∧ (∀ (self : @ModelSpec.t Desc Builder) (data_iter_maker : Args → Kwargs → list Chunk)
       (args : Args) (kwargs : Kwargs),
       ModelSpec.make_matrices_incremental G self data_iter_maker args kwargs
       = Raise (NameError "make_model_matrices_incremental"))
  ∧ (∀ (G : @ModelSpec.globals Factor Builder Chunk Args Kwargs Matrices)
       (self : @ModelSpec.t Desc Builder) (data : Chunk),
       ModelSpec.make_matrices no_args no_kwargs G self data
       = ModelSpec.make_matrices_incremental G self (ModelSpec.data_gen data) no_args no_kwargs
       ∧ ∀ (args : Args) (kwargs : Kwargs), ModelSpec.data_gen data args kwargs = [data])
  ∧ (∀ make_model_matrices_incremental (self : @ModelSpec.t Desc Builder)
       (data_iter_maker : Args → Kwargs → list Chunk) (args : Args) (kwargs : Kwargs),
       ModelSpec.make_matrices_incremental (Factor:=Factor) (Matrices:=Matrices)
         (Some make_model_matrices_incremental) self data_iter_maker args kwargs
       = make_model_matrices_incremental
           [ModelSpec.lhs_builder self; ModelSpec.rhs_builder self] data_iter_maker
           args kwargs).
Proof. cbn zeta. split_and!; [reflexivity | reflexivity | by split | reflexivity]. Qed.

(** ** The factor evaluators *)

(** C5. [NumericFactorEvaluator.eval] reads the names [env] and
    [default_env], which neither the method nor the module binds: every
    call raises [NameError], whatever the evaluator and the chunk; on the
    first call of [test_NumericFactorEvaluator], [nf1.eval({"mock": [1, 2,
    3]})], the test expects the 3 x 1 matrix. *)
Theorem NumericFactorEvaluator_eval_NameError :
  (∀ (self : @NumericFactorEvaluator.t _MockFactor bindings) (data : bindings),
     NumericFactorEvaluator.eval spec_eval_globals self data = Raise (NameError "env"))
  ∧ NumericFactorEvaluator.eval spec_eval_globals test_evaluators.nf1 test_evaluators.mock123
    ≠ Ok (AInt (NDArray [3; 1] [1; 2; 3]%Z)).
Proof. split; [reflexivity | discriminate]. Qed.

(** With the two names bound as the constructor and the parameter have
    them ([env] to the chunk, [default_env] to [self._default_env]), the
    calls of [test_NumericFactorEvaluator] on [nf1] have the outcomes the
    test expects. *)
Example NumericFactorEvaluator_eval_names_bound :
  let eval data := NumericFactorEvaluator.eval
                     {| g_env := Some data; g_default_env := Some ∅ |}
                     test_evaluators.nf1 data in
  eval test_evaluators.mock123 = Ok (AInt (NDArray [3; 1] [1; 2; 3]%Z))
  ∧ eval {[ "mock" := VArray (AInt (NDArray [1; 1; 1] [1%Z])) ]}
    = Raise (CharltonErrorWithOrigin (msg_too_many_dims 3 2) test_evaluators.f)
  ∧ eval {[ "mock" := VArray (AInt (NDArray [1; 2] [1; 2]%Z)) ]}
    = Raise (CharltonErrorWithOrigin msg_wrong_columns test_evaluators.f)
  ∧ eval {[ "mock" := VArray (AStr (NDArray [2] ["a"; "b"])) ]}
    = Raise (CharltonErrorWithOrigin msg_non_numeric test_evaluators.f)
  ∧ eval test_evaluators.mock_bools
    = Raise (CharltonErrorWithOrigin msg_non_numeric test_evaluators.f).
Proof. vm_compute. split_and!; reflexivity. Qed.

(** C6. [CategoricFactorEvaluator.eval] reads the name [default_env],
    which neither the method nor the module binds: every call raises
    [NameError], whatever the evaluator, the postprocessor and the chunk;
    on the first call of [test_CategoricFactorEvaluator],
    [cf1.eval({"mock": Categorical.from_strings(["b", "a", "b"])})], the
    test expects the 3 x 1 index matrix. *)
Theorem CategoricFactorEvaluator_eval_NameError {CT : Type}
    (ct_transform : CT → value → result _MockFactor value) :
  (∀ (self : @CategoricFactorEvaluator.t _MockFactor bindings CT) (data : bindings),
     CategoricFactorEvaluator.eval ct_transform spec_eval_globals self data
     = Raise (NameError "default_env"))
  ∧ CategoricFactorEvaluator.eval ct_transform spec_eval_globals test_evaluators.cf1
      test_evaluators.mock_bab
    ≠ Ok (AInt (NDArray [3; 1] [1; 0; 1]%Z)).
Proof. split; [reflexivity | discriminate]. Qed.

(** With [default_env] bound to [self._default_env], the calls of
    [test_CategoricFactorEvaluator] have the outcomes the test expects:
    the index matrix, a type error on data that is not categorical, a
    level-mismatch error on other levels or another order of the levels,
    and an error on an index array of 2 dimensions. *)
Example CategoricFactorEvaluator_eval_names_bound {CT : Type}
    (ct_transform : CT → value → result _MockFactor value) :
  let eval self data := CategoricFactorEvaluator.eval ct_transform
                          {| g_env := None; g_default_env := Some ∅ |} self data in
  let cat int_array levels := VCategorical {| int_array := int_array; levels := levels;
                                              contrast := None |} in
  eval test_evaluators.cf1 test_evaluators.mock_bab = Ok (AInt (NDArray [3; 1] [1; 0; 1]%Z))
  ∧ eval test_evaluators.cf1 {[ "mock" := VArray (AStr (NDArray [1] ["c"])) ]}
    = Raise (CharltonErrorWithOrigin msg_not_categorical test_evaluators.f)
  ∧ eval test_evaluators.cf1
      {[ "mock" := cat (NDArray [2] [0; 1]%Z) [LStr "a"; LStr "c"] ]}
    = Raise (CharltonErrorWithOrigin msg_unexpected_levels test_evaluators.f)
  ∧ eval test_evaluators.cf1
      {[ "mock" := cat (NDArray [2] [1; 0]%Z) [LStr "b"; LStr "a"] ]}
    = Raise (CharltonErrorWithOrigin msg_unexpected_levels test_evaluators.f)
  ∧ eval test_evaluators.cf1
      {[ "mock" := cat (NDArray [2; 2] [1; 0; 0; 1]%Z) [LStr "a"; LStr "b"] ]}
    = Raise (CharltonErrorWithOrigin (msg_too_many_dims 2 1) test_evaluators.f)
  ∧ eval {| CategoricFactorEvaluator.factor := test_evaluators.f;
            CategoricFactorEvaluator._state := ∅;
            CategoricFactorEvaluator._postprocessor :=
              Some (BoolToCategorical {| _BoolToCategorical.factor := test_evaluators.f |});
            CategoricFactorEvaluator._expected_levels := [LBool false; LBool true];
            CategoricFactorEvaluator._default_env := ∅ |}
       {[ "mock" := VArray (ABool (NDArray [4] [true; false; false; true])) ]}
    = Ok (AInt (NDArray [4; 1] [1; 0; 0; 1]%Z)).
Proof. vm_compute. split_and!; reflexivity. Qed.

(** ** [_factors_memorize] *)

(** C7. [_factors_memorize] reads the name [all_factors], which neither
    the function nor the module binds: every call raises [NameError]
    before any memorization call is issued, whatever the factors and the
    stream; a factor that declares one pass receives neither its
    [memorize_chunk] nor its [memorize_finish]. Were the two unbound names
    bound to the factors and their pass counts, the factor would receive
    the calls of pass 0, and the loop that removes it from the set it is
    iterating over would then raise [RuntimeError]. *)
Theorem factors_memorize_NameError :
  (∀ fuel stateful_transforms default_env factors data_iter_maker,
     Memorize._factors_memorize (Factor:=PassFactor) 0 Memorize.spec_globals fuel
       stateful_transforms default_env factors data_iter_maker
     = Some ([], Raise (NameError "all_factors")))
  ∧ (∀ fuel, 0 < fuel →
     Memorize._factors_memorize 0 test_memorize.names_bound fuel () ∅
       [test_memorize.one_pass] test_memorize.data_iter_maker
     = Some ([Memorize.call_memorize_passes_needed test_memorize.one_pass;
              Memorize.call_memorize_chunk test_memorize.one_pass 0 [test_memorize.chunk; ∅];
              Memorize.call_memorize_finish test_memorize.one_pass 0],
             Raise RuntimeError)).
Proof.
  split; [reflexivity |].
  intros [|fuel] Hfuel; [lia |]. vm_compute. reflexivity.
Qed.

(** ** [_examine_factor_types] *)
Section examine_facts.
Context {Factor State Transforms : Type} `{Countable Factor}.
Context `{FactorProtocol Factor State Transforms}.
Context {CT : Type}.
Variable ct_new : CT.
Variable ct_memorize_chunk : CT → array → result Factor CT.
Variable ct_memorize_finish : CT → result Factor CT.

(** The call raises. *)
Definition raises {A} (r : result Factor A) : Prop := ∃ e, r = Raise e.

Lemma raises_Raise {A} (e : exn Factor) : raises (A:=A) (Raise e).
Proof. by exists e. Qed.

(** A call whose continuation always raises, raises. *)
Lemma raises_bind {A B} (m : result Factor A) (k : A → result Factor B) :
  (∀ a, raises (k a)) → raises (m ≫= k).
Proof. intros Hk. destruct m as [a|e]; [apply Hk | apply raises_Raise]. Qed.

Lemma column_shape_length (s : list nat) : 2 ≤ length (column_shape s).
Proof. destruct s as [|n [|c s]]; cbn; lia. Qed.

(** [atleast_2d_column_default] returns an array of 2 dimensions or more. *)
Lemma atleast_2d_column_default_ndim (v : value) :
  2 ≤ array_ndim (atleast_2d_column_default v).
Proof.
  unfold atleast_2d_column_default, array_ndim.
  destruct (asarray v); cbn; apply column_shape_length.
Qed.

(** So the check for at most 1 dimension that follows it cannot pass. *)
Lemma max_allowed_dim_1_raises (v : value) (factor : Factor) :
  raises (_max_allowed_dim 1 (atleast_2d_column_default v) factor).
Proof.
  unfold _max_allowed_dim. pose proof (atleast_2d_column_default_ndim v).
  rewrite decide_True by lia. apply raises_Raise.
Qed.

(** The examination of a factor whose value is not of a numeric dtype
    raises: the two branches for such a value begin with that check. *)
Lemma examine_factor_raises G (data : bindings) (factor : Factor) (v : value) s :
  (∀ state, eval factor state [data] = Ok v) →
  is_number (atleast_2d_column_default v) = false →
  raises (Examine.examine_factor ct_new ct_memorize_chunk G data factor s).
Proof.
  intros Heval Hnumber. destruct (max_allowed_dim_1_raises v factor) as [e He].
  unfold Examine.examine_factor.
  destruct G as [factor_states|]; cbn; [|apply raises_Raise].
  destruct (getitem (Factor:=Factor) factor_states factor) as [state|]; cbn;
    [|apply raises_Raise].
  rewrite Heval. cbn -[atleast_2d_column_default _max_allowed_dim].
  revert He Hnumber. generalize (atleast_2d_column_default v). intros arr He Hnumber.
  apply raises_bind. intros s'. apply raises_bind. intros _.
  rewrite Hnumber. destruct (is_bool_kind arr); rewrite He; apply raises_Raise.
Qed.

Lemma for_each_raises {A S} (l : list A) (body : A → S → result Factor S) (x : A) (s : S) :
  x ∈ l → (∀ s, raises (body x s)) → raises (Examine.for_each l body s).
Proof.
  intros Hx Hbody. revert s. induction l as [|y l IH]; intros s; [by apply elem_of_nil in Hx |].
  cbn. apply elem_of_cons in Hx as [<-|Hx].
  - destruct (Hbody s) as [e ->]. apply raises_Raise.
  - destruct (body y s) as [s'|]; cbn; [by apply IH | apply raises_Raise].
Qed.

(** The type examination raises as soon as the first chunk gives some
    factor a value that is not of a numeric dtype. *)
Lemma examine_factor_types_raises {Args Kwargs : Type} G (factors : list Factor)
    (data : bindings) (chunks : list bindings) (factor : Factor) (v : value)
    (args : Args) (kwargs : Kwargs) :
  factor ∈ factors →
  (∀ state, eval factor state [data] = Ok v) →
  is_number (atleast_2d_column_default v) = false →
  raises (Examine._examine_factor_types ct_new ct_memorize_chunk ct_memorize_finish G factors
            (fun _ _ => data :: chunks) args kwargs).
Proof.
  intros Hfactor Heval Hnumber. unfold Examine._examine_factor_types. cbn.
  rewrite decide_False by set_solver.
  destruct (for_each_raises (elements (list_to_set (C:=gset Factor) factors))
              (Examine.examine_factor ct_new ct_memorize_chunk G data) factor
              (Examine.Locals ∅ ∅ ∅ (list_to_set factors))) as [e ->].
  - apply elem_of_elements. set_solver.
  - intros s. by eapply examine_factor_raises.
  - apply raises_Raise.
Qed.
End examine_facts.

(** C3. The type examiner on a factor that evaluates to a categorical
    value ([Categorical.from_strings(["b", "a", "b"])], in a stream of one
    chunk): the branch for a categorical value records the levels and the
    contrast and removes the factor from the set, and there is no
    [continue] after it, so the value goes on to the coercion and to the
    branch for a value that is neither numeric nor boolean, whose check of
    the dimensions raises. The call raises whatever [factor_states] is
    bound to; with the state of the factor bound it is that check which
    raises. *)
Theorem examine_categorical_falls_through {CT : Type} (ct_new : CT)
    (ct_memorize_chunk : CT → array → result _MockFactor CT)
    (ct_memorize_finish : CT → result _MockFactor CT) :
  let f := test_evaluators.f in
  let examine G := Examine._examine_factor_types (Args:=unit) (Kwargs:=unit)
                     ct_new ct_memorize_chunk ct_memorize_finish G [f]
                     (fun _ _ => [test_evaluators.mock_bab]) () () in
  Examine.remove f
    (Examine.set_levels_contrast f
       (levels test_evaluators.bab, contrast test_evaluators.bab)
       (Examine.Locals (CT:=CT) ∅ ∅ ∅ {[ f ]}))
  = Ok (Examine.Locals ∅ ∅ {[ f := ([LStr "a"; LStr "b"], None) ]} ∅)
  ∧ (∀ G, ∃ e, examine G = Raise e)
  ∧ examine Examine.spec_globals = Raise (NameError "factor_states")
  ∧ examine (Some {[ f := ∅ ]}) = Raise (CharltonErrorWithOrigin (msg_too_many_dims 2 1) f).
Proof.
  intros f examine. split_and!.
  - reflexivity.
  - intros G. apply (examine_factor_types_raises ct_new ct_memorize_chunk ct_memorize_finish
                       G [f] test_evaluators.mock_bab [] f
                       (VCategorical test_evaluators.bab) () ()).
    + apply list_elem_of_singleton. reflexivity.
    + reflexivity.
    + reflexivity.
  - reflexivity.
  - vm_compute. reflexivity.
Qed.

(** C4. The type examiner on a factor that evaluates to boolean data of 1
    dimension ([[True, False]], in a stream of one chunk): the branch for
    a boolean value checks that the value has at most 1 dimension after
    the value has been coerced to 2 dimensions, so the check raises and
    the factor is not classified. The call raises whatever
    [factor_states] is bound to. The postprocessor that the branch would
    install does turn boolean data into a categorical value of levels
    (false, true). *)
Theorem examine_boolean_raises {CT : Type} (ct_new : CT)
    (ct_memorize_chunk : CT → array → result _MockFactor CT)
    (ct_memorize_finish : CT → result _MockFactor CT) :
  let f := test_evaluators.f in
  let examine G := Examine._examine_factor_types (Args:=unit) (Kwargs:=unit)
                     ct_new ct_memorize_chunk ct_memorize_finish G [f]
                     (fun _ _ => [test_evaluators.mock_bools]) () () in
  (∀ G, ∃ e, examine G = Raise e)
  ∧ examine Examine.spec_globals = Raise (NameError "factor_states")
  ∧ examine (Some {[ f := ∅ ]}) = Raise (CharltonErrorWithOrigin (msg_too_many_dims 2 1) f)
  ∧ _BoolToCategorical.transform {| _BoolToCategorical.factor := f |}
      (VArray (ABool (NDArray [4] [true; false; true; true])))
    = Ok (VCategorical {| int_array := NDArray [4] [1; 0; 1; 1]%Z;
                          levels := [LBool false; LBool true];
                          contrast := None |}).
Proof.
  intros f examine. split_and!.
  - intros G. apply (examine_factor_types_raises ct_new ct_memorize_chunk ct_memorize_finish
                       G [f] test_evaluators.mock_bools [] f
                       (VArray (ABool (NDArray [2] [true; false]))) () ()).
    + apply list_elem_of_singleton. reflexivity.
    + reflexivity.
    + reflexivity.
  - reflexivity.
  - vm_compute. reflexivity.
  - reflexivity.
Qed.

(** * Further properties *)

(** ** [_BoolToCategorical] *)

(** X1. [_BoolToCategorical.transform] accepts boolean data of at most 1
    dimension and nothing else. What it returns is a categorical value of
    levels (false, true) without contrast, whose index array has the shape
    of the data and decodes, through the levels, to the data again. Each
    of its failures is a [CharltonErrorWithOrigin] tagged with the factor
    of the transform: too many dimensions, and then data that is not
    boolean. *)
Theorem BoolToCategorical_transform_roundtrip {Factor : Type}
    (self : @_BoolToCategorical.t Factor) (data : value) :
  match _BoolToCategorical.transform self data with
  | Ok v =>
      ∃ a c, data = VArray (ABool a) ∧ ndim a ≤ 1 ∧ v = VCategorical c
             ∧ levels c = [LBool false; LBool true] ∧ contrast c = None
             ∧ shape (int_array c) = shape a
             ∧ Forall2 (fun k b => levels c !! Z.to_nat k = Some (LBool b))
                 (items (int_array c)) (items a)
  | Raise e =>
      (1 < array_ndim (asarray data)
       ∧ e = CharltonErrorWithOrigin (msg_too_many_dims (array_ndim (asarray data)) 1)
               (_BoolToCategorical.factor self))
      ∨ (array_ndim (asarray data) ≤ 1 ∧ is_bool_kind (asarray data) = false
         ∧ e = CharltonErrorWithOrigin msg_not_boolean (_BoolToCategorical.factor self))
  end.
Proof.
  unfold _BoolToCategorical.transform, _max_allowed_dim.
  destruct (decide (1 < array_ndim (asarray data))) as [Hdim|Hdim]; cbn.
  - left. done.
  - destruct data as [c|[a|a|a|a|a]]; cbn in *;
      try (right; split_and!; [lia | done | done]).
    exists a, (_BoolToCategorical.categorical_of_bools a).
    split_and!; try done; [unfold ndim; lia |].
    cbn. induction (items a) as [|b l IH]; cbn; constructor; [by destruct b | done].
Qed.

(** ** The factor evaluators, whatever the module binds the names they read to *)
Section evaluator_facts.
Context {Factor State Transforms : Type} `{FactorProtocol Factor State Transforms}.

Lemma atleast_2d_column_default_shape (v : value) :
  ∃ n c rest, array_shape (atleast_2d_column_default v) = n :: c :: rest.
Proof.
  unfold atleast_2d_column_default.
  destruct (asarray v) as [[s l]|[s l]|[s l]|[s l]|[s l]]; cbn;
    destruct s as [|n [|c rest]]; cbn; eauto.
Qed.

(** X2. [NumericFactorEvaluator.eval] returns [r] exactly when the module
    binds the two names the method reads, the factor evaluates in their
    environment to a value, [r] is that value coerced, and [r] is a
    numeric array of exactly 2 dimensions with exactly the expected
    number of columns. *)
Theorem NumericFactorEvaluator_eval_returns G
    (self : @NumericFactorEvaluator.t Factor State) (data : bindings) (r : array) :
  NumericFactorEvaluator.eval G self data = Ok r ↔
  ∃ env default_env v n,
    g_env G = Some env ∧ g_default_env G = Some default_env
    ∧ eval (NumericFactorEvaluator.factor self) (NumericFactorEvaluator._state self)
        [env; default_env] = Ok v
    ∧ r = atleast_2d_column_default v
    ∧ is_number r = true
    ∧ array_shape r = [n; NumericFactorEvaluator._expected_columns self].
Proof.
  unfold NumericFactorEvaluator.eval, global. split.
  - destruct (g_env G) as [env|]; cbn; [|done].
    destruct (g_default_env G) as [default_env|]; cbn; [|done].
    destruct (eval _ _ _) as [v|] eqn:Hv; cbn; [|done].
    unfold _max_allowed_dim.
    destruct (decide (2 < array_ndim (atleast_2d_column_default v))) as [|Hdim]; cbn; [done |].
    destruct (atleast_2d_column_default_shape v) as (n & c & rest & Hshape).
    unfold array_ndim in Hdim. rewrite Hshape in *. cbn in *.
    destruct rest; cbn in Hdim; [|lia].
    destruct (decide (c ≠ _)) as [|Hc]; [done |].
    destruct (is_number _) eqn:Hnumber; cbn; [|done].
    intros [= <-]. exists env, default_env, v, n.
    apply dec_stable in Hc. by rewrite Hshape, Hc.
  - intros (env & default_env & v & n & -> & -> & Hv & -> & Hnumber & Hshape). cbn.
    rewrite Hv. cbn. unfold _max_allowed_dim, array_ndim. rewrite Hshape. cbn.
    rewrite !decide_False by lia. cbn. by rewrite Hnumber.
Qed.

(** X3. Every failure of [NumericFactorEvaluator.eval] is the [NameError] of a
    name the module does not bind, the failure of the factor's own
    [eval], or a [CharltonErrorWithOrigin] tagged with the factor of the
    evaluator. *)
Theorem NumericFactorEvaluator_eval_raises G
    (self : @NumericFactorEvaluator.t Factor State) (data : bindings) (e : exn Factor) :
  NumericFactorEvaluator.eval G self data = Raise e →
  (g_env G = None ∧ e = NameError "env")
  ∨ (g_default_env G = None ∧ e = NameError "default_env")
  ∨ (∃ env default_env,
       eval (NumericFactorEvaluator.factor self) (NumericFactorEvaluator._state self)
         [env; default_env] = Raise e)
  ∨ (∃ msg, e = CharltonErrorWithOrigin msg (NumericFactorEvaluator.factor self)).
Proof.
  unfold NumericFactorEvaluator.eval, global.
  destruct (g_env G) as [env|]; cbn; [|intros [= <-]; by left].
  destruct (g_default_env G) as [default_env|]; cbn; [|intros [= <-]; right; by left].
  destruct (eval _ _ _) as [v|e'] eqn:Hv; cbn; [|intros [= <-]; right; right; left; eauto].
  unfold _max_allowed_dim.
  destruct (decide (2 < array_ndim (atleast_2d_column_default v))) as [|Hdim]; cbn;
    [intros [= <-]; right; right; right; eauto |].
  destruct (atleast_2d_column_default_shape v) as (n & c & rest & Hshape).
  rewrite Hshape. cbn.
  destruct (decide (c ≠ _)); [intros [= <-]; right; right; right; eauto |].
  destruct (is_number _); cbn; [done | intros [= <-]; right; right; right; eauto].
Qed.

Context {CT : Type}.
Variable ct_transform : CT → value → result Factor value.

(** X4. [CategoricFactorEvaluator.eval] returns [r] exactly when the
    module binds [default_env], the factor evaluates in the environment of
    the chunk and the default bindings to a value, that value (after the
    postprocessor of the evaluator, when it has one) is a categorical
    value whose levels equal the expected ones and whose index array has
    at most 1 dimension, and [r] is that index array as an integer matrix
    of exactly 2 dimensions and exactly 1 column. *)
Theorem CategoricFactorEvaluator_eval_returns G
    (self : @CategoricFactorEvaluator.t Factor State CT) (data : bindings) (r : array) :
  CategoricFactorEvaluator.eval ct_transform G self data = Ok r ↔
  ∃ default_env v c n,
    g_default_env G = Some default_env
    ∧ eval (CategoricFactorEvaluator.factor self) (CategoricFactorEvaluator._state self)
        [data; default_env] = Ok v
    ∧ match CategoricFactorEvaluator._postprocessor self with
      | Some p => CategoricFactorEvaluator.postprocessor_transform ct_transform p v
      | None => Ok v
      end = Ok (VCategorical c)
    ∧ levels_eqb (levels c) (CategoricFactorEvaluator._expected_levels self) = true
    ∧ ndim (int_array c) ≤ 1
    ∧ column_shape (shape (int_array c)) = [n; 1]
    ∧ r = AInt (NDArray [n; 1] (items (int_array c))).
Proof.
  unfold CategoricFactorEvaluator.eval, global. split.
  - destruct (g_default_env G) as [default_env|]; cbn; [|done].
    destruct (eval _ _ _) as [v|] eqn:Hv; cbn; [|done].
    destruct (match CategoricFactorEvaluator._postprocessor self with
              | Some p => _
              | None => _
              end) as [[c|a]|] eqn:Hpost; cbn; [|done|done].
    destruct (levels_eqb _ _) eqn:Hlevels; cbn; [|done].
    unfold _max_allowed_dim, array_ndim. cbn.
    destruct (decide (1 < length (shape (int_array c)))) as [|Hdim]; cbn; [done |].
    intros [= <-]. unfold atleast_2d_column_default, reshape_column. cbn.
    destruct (shape (int_array c)) as [|n [|m rest]] eqn:Hshape; cbn in *; [| |lia].
    + exists default_env, v, c, 1. unfold ndim. rewrite Hshape.
      split_and!; [done | done | done | done | cbn; lia | done | done].
    + exists default_env, v, c, n. unfold ndim. rewrite Hshape.
      split_and!; [done | done | done | done | cbn; lia | done | done].
  - intros (default_env & v & c & n & -> & Hv & Hpost & Hlevels & Hdim & Hshape & ->). cbn.
    rewrite Hv. cbn. rewrite Hpost. cbn. rewrite Hlevels. cbn.
    unfold _max_allowed_dim, array_ndim. cbn. unfold ndim in Hdim.
    rewrite decide_False by lia. cbn.
    unfold atleast_2d_column_default, reshape_column. cbn. by rewrite Hshape.
Qed.

(** X5. A boolean factor through its evaluator: when the postprocessor of the
    evaluator is a [_BoolToCategorical], the expected levels are (false,
    true) and the factor evaluates to boolean data of at most 1
    dimension, [CategoricFactorEvaluator.eval] returns the column of the
    indicators, 1 where the data is true and 0 where it is false. *)
Theorem CategoricFactorEvaluator_eval_boolean G
    (self : @CategoricFactorEvaluator.t Factor State CT) (data default_env : bindings)
    (p : @_BoolToCategorical.t Factor) (a : ndarray bool) :
  g_default_env G = Some default_env →
  CategoricFactorEvaluator._postprocessor self = Some (BoolToCategorical p) →
  CategoricFactorEvaluator._expected_levels self = [LBool false; LBool true] →
  eval (CategoricFactorEvaluator.factor self) (CategoricFactorEvaluator._state self)
    [data; default_env] = Ok (VArray (ABool a)) →
  ndim a ≤ 1 →
  CategoricFactorEvaluator.eval ct_transform G self data
  = Ok (AInt (NDArray (column_shape (shape a))
                ((fun b : bool => if b then 1 else 0)%Z <$> items a))).
Proof.
  intros HG Hp Hlevels Heval Hdim.
  unfold CategoricFactorEvaluator.eval, global. rewrite HG. cbn. rewrite Heval, Hp. cbn.
  unfold _BoolToCategorical.transform, _max_allowed_dim, array_ndim. cbn.
  unfold ndim in Hdim. rewrite decide_False by lia. cbn. rewrite Hlevels. cbn.
  by rewrite decide_False by lia.
Qed.
End evaluator_facts.

(** X2, on the first call of [test_NumericFactorEvaluator], with the two names
    bound to the chunk and to the empty default bindings. *)
Lemma NumericFactorEvaluator_eval_returns_witness :
  ∃ env default_env v n,
    Some test_evaluators.mock123 = Some env ∧ Some (∅ : bindings) = Some default_env
    ∧ eval test_evaluators.f (∅ : bindings) [env; default_env] = Ok v
    ∧ AInt (NDArray [3; 1] [1; 2; 3]%Z) = atleast_2d_column_default v
    ∧ is_number (AInt (NDArray [3; 1] [1; 2; 3]%Z)) = true
    ∧ array_shape (AInt (NDArray [3; 1] [1; 2; 3]%Z)) = [n; 1].
Proof.
  apply (proj1 (NumericFactorEvaluator_eval_returns
                  {| g_env := Some test_evaluators.mock123; g_default_env := Some ∅ |}
                  test_evaluators.nf1 test_evaluators.mock123
                  (AInt (NDArray [3; 1] [1; 2; 3]%Z)))).
  reflexivity.
Defined.

(** X3, on a chunk of strings, with the two names bound: the failure is tagged
    with the factor. *)
Lemma NumericFactorEvaluator_eval_raises_witness :
  let e := CharltonErrorWithOrigin msg_non_numeric test_evaluators.f in
  let data : bindings := {[ "mock" := VArray (AStr (NDArray [2] ["a"; "b"])) ]} in
  (Some data = None ∧ e = NameError "env")
  ∨ (Some (∅ : bindings) = None ∧ e = NameError "default_env")
  ∨ (∃ env default_env, eval test_evaluators.f (∅ : bindings) [env; default_env] = Raise e)
  ∨ (∃ msg, e = CharltonErrorWithOrigin msg test_evaluators.f).
Proof.
  intros e data.
  apply (NumericFactorEvaluator_eval_raises {| g_env := Some data; g_default_env := Some ∅ |}
           test_evaluators.nf1 data e).
  reflexivity.
Defined.

(** X4, on the first call of [test_CategoricFactorEvaluator], with the name
    bound to the empty default bindings. *)
Lemma CategoricFactorEvaluator_eval_returns_witness :
  ∃ default_env v c n,
    Some (∅ : bindings) = Some default_env
    ∧ eval test_evaluators.f (∅ : bindings) [test_evaluators.mock_bab; default_env] = Ok v
    ∧ Ok v = Ok (Factor:=_MockFactor) (VCategorical c)
    ∧ levels_eqb (levels c) [LStr "a"; LStr "b"] = true
    ∧ ndim (int_array c) ≤ 1
    ∧ column_shape (shape (int_array c)) = [n; 1]
    ∧ AInt (NDArray [3; 1] [1; 0; 1]%Z) = AInt (NDArray [n; 1] (items (int_array c))).
Proof.
  apply (proj1 (CategoricFactorEvaluator_eval_returns (CT:=unit) (fun _ v => Ok v)
                  {| g_env := None; g_default_env := Some ∅ |}
                  test_evaluators.cf1 test_evaluators.mock_bab
                  (AInt (NDArray [3; 1] [1; 0; 1]%Z)))).
  reflexivity.
Defined.

(** X5, on the boolean call of [test_CategoricFactorEvaluator]. *)
Lemma CategoricFactorEvaluator_eval_boolean_witness :
  let f := test_evaluators.f in
  let self : @CategoricFactorEvaluator.t _MockFactor bindings unit :=
    {| CategoricFactorEvaluator.factor := f;
       CategoricFactorEvaluator._state := ∅;
       CategoricFactorEvaluator._postprocessor :=
         Some (BoolToCategorical {| _BoolToCategorical.factor := f |});
       CategoricFactorEvaluator._expected_levels := [LBool false; LBool true];
       CategoricFactorEvaluator._default_env := ∅ |} in
  CategoricFactorEvaluator.eval (fun _ v => Ok v) {| g_env := None; g_default_env := Some ∅ |}
    self {[ "mock" := VArray (ABool (NDArray [4] [true; false; false; true])) ]}
  = Ok (AInt (NDArray [4; 1] [1; 0; 0; 1]%Z)).
Proof.
  intros f self.
  apply (CategoricFactorEvaluator_eval_boolean (fun _ v => Ok v)
           {| g_env := None; g_default_env := Some ∅ |} self
           {[ "mock" := VArray (ABool (NDArray [4] [true; false; false; true])) ]} ∅
           {| _BoolToCategorical.factor := f |} (NDArray [4] [true; false; false; true]));
    [reflexivity | reflexivity | reflexivity | reflexivity | cbn; lia].
Defined.

(** ** [ColumnBuilder], further *)
Section ColumnBuilder_more.
Context {Factor : Type} `{Countable Factor}.
Implicit Types (factors : list Factor) (numeric_columns : gmap Factor nat).
Implicit Types (categoric_contrasts : gmap Factor ContrastMatrix).
Implicit Types (self : @ColumnBuilder.t Factor _ _) (out : matrix).
Implicit Types (factor_values : gmap Factor (@ColumnBuilder.fvalue)).

(** X6. [ColumnBuilder.__init__] returns exactly when every factor is a key of
    one of the two dicts, and its only failure is the [KeyError] of a
    factor that is a key of neither. *)
Theorem init_KeyError factors numeric_columns categoric_contrasts :
  match ColumnBuilder.init factors numeric_columns categoric_contrasts with
  | Ok self =>
      Forall (fun factor => is_Some (categoric_contrasts !! factor)
                            ∨ is_Some (numeric_columns !! factor)) factors
  | Raise e =>
      e = KeyError
      ∧ Exists (fun factor => categoric_contrasts !! factor = None
                              ∧ numeric_columns !! factor = None) factors
  end.
Proof.
  unfold ColumnBuilder.init, getitem.
  induction factors as [|factor factors IH]; cbn; [constructor |].
  destruct (categoric_contrasts !! factor) as [contrast|] eqn:Hc; cbn.
  - destruct (mapM _ factors) as [widths|e]; cbn in *.
    + constructor; [left; eauto | done].
    + destruct IH as [-> IH]. split; [done | by apply Exists_cons_tl].
  - destruct (numeric_columns !! factor) as [n|] eqn:Hn; cbn.
    + destruct (mapM _ factors) as [widths|e]; cbn in *.
      * constructor; [right; eauto | done].
      * destruct IH as [-> IH]. split; [done | by apply Exists_cons_tl].
    + split; [done | by apply Exists_cons_hd].
Qed.





(** A loop whose body keeps an invariant keeps it, whether it raises or
    not. *)
Lemma for_in_invariant {A S} (P : S → Prop) (l : list A)
    (body : A → S → S * option (exn Factor)) (s : S) :
  (∀ x s, P s → P (body x s).1) → P s → P (for_in l body s).1.
Proof.
  intros Hbody. revert s. induction l as [|x l IH]; intros s Hs; [done |].
  cbn. specialize (Hbody x s Hs). destruct (body x s) as [s' [e|]]; [done |].
  by apply IH.
Qed.


End ColumnBuilder_more.

(** ** The cast of an [int64] to a [float64] *)

(** The cast at the least and the greatest [int64], at a tie between two
    binary64 numbers, and on a small negative integer. *)
Example float_of_Z_int64 :
  float_of_Z (- 2 ^ 63) = (-9223372036854775808)%float
  ∧ float_of_Z (2 ^ 63 - 1) = 9223372036854775808%float
  ∧ float_of_Z (2 ^ 53 + 1) = 9007199254740992%float
  ∧ float_of_Z (-12) = (-12)%float.
Proof. vm_compute. split_and!; reflexivity. Qed.

(** ** The values that [build] computes *)
Section ColumnBuilder_build_values.
Context {Factor : Type} `{Countable Factor}.
Implicit Types (self : @ColumnBuilder.t Factor _ _) (out : matrix).
Implicit Types (factor_values : gmap Factor (@ColumnBuilder.fvalue)).











End ColumnBuilder_build_values.


(** ** [_factors_memorize], whatever the module binds the names it reads to *)
Section memorize_facts.
Context {Factor State Transforms : Type} `{Countable Factor}.
Context `{FactorProtocol Factor State Transforms}.
Variable new_state : State.
Implicit Types (s : @Memorize.locals Factor State _ _).

(** When a loop over a set ends without an exception, the set has the size
    it had when the loop began. *)
Lemma for_in_set_size {A S} (size : S → nat) (n : nat) (l : list A)
    (body : A → S → S * option (exn Factor)) (s s' : S) :
  Memorize.for_in_set size n l body s = (s', None) → size s' = n.
Proof.
  revert s. induction l as [|x l IH]; intros s; cbn.
  - destruct (decide (size s = n)) as [Hsize|]; [by intros [= <-] | done].
  - destruct (decide (size s = n)) as [Hsize|]; [|done].
    destruct (body x s) as [s1 [e|]]; [done | apply IH].
Qed.

(** The first loop, when it ends without an exception: one
    [memorize_passes_needed] call for each factor, in order, and nothing
    done to the set of the factors that need a pass. *)
Lemma setup_loop_calls stateful_transforms (all_factors : list Factor) s s' :
  for_in all_factors (Memorize.setup_body new_state stateful_transforms) s = (s', None) →
  Memorize.calls s'
  = (Memorize.calls s ++ (Memorize.call_memorize_passes_needed <$> all_factors))%list
  ∧ Memorize.memorize_needed s' = Memorize.memorize_needed s.
Proof.
  revert s. induction all_factors as [|factor all_factors IH]; intros s; cbn.
  - intros [= <-]. by rewrite app_nil_r.
  - unfold Memorize.setup_body at 1.
    destruct (memorize_passes_needed factor new_state stateful_transforms)
      as [[state which_pass]|]; cbn; [|done].
    intros [-> ->]%IH. cbn. by rewrite <- app_assoc.
Qed.

(** The loop over the chunks of a pass leaves the set as it is. *)
Lemma chunks_loop_needed default_env which_pass (chunks : list bindings) s :
  Memorize.memorize_needed (for_in chunks (Memorize.chunk_body default_env which_pass) s).1
  = Memorize.memorize_needed s.
Proof.
  apply (for_in_invariant
           (fun s' => Memorize.memorize_needed s' = Memorize.memorize_needed s)); [|done].
  intros data s1 Hs1. unfold Memorize.chunk_body.
  apply (for_in_invariant
           (fun s' => Memorize.memorize_needed s' = Memorize.memorize_needed s)); [|done].
  intros factor s2 Hs2.
  destruct (getitem (Factor:=Factor) (Memorize.factor_states s2) factor) as [state|];
    cbn; [|done].
  destruct (memorize_chunk factor state which_pass _) as [state'|]; cbn; done.
Qed.

(** The [while] loop never ends normally once some factor needs a pass:
    the loop that finishes a pass cannot both shrink the set and end, so
    the set never becomes empty. *)
Lemma passes_loop_never_ends G default_env (chunks : list bindings) fuel which_pass s s' :
  Memorize.memorize_needed s ≠ [] →
  Memorize.passes_loop G default_env chunks fuel which_pass s ≠ Some (s', None).
Proof.
  revert which_pass s. induction fuel as [|fuel IH]; intros which_pass s Hneeded; cbn.
  - by destruct (Memorize.memorize_needed s).
  - destruct (Memorize.memorize_needed s) as [|factor0 needed0] eqn:Hs; [done |].
    pose proof (chunks_loop_needed default_env which_pass chunks s) as Hchunks.
    destruct (for_in chunks _ s) as [s1 [e|]]; [done |]. cbn in Hchunks.
    destruct (Memorize.for_in_set _ _ _ _ s1) as [s2 [e|]] eqn:Hfinish; [done |].
    apply for_in_set_size in Hfinish. apply IH.
    intros Hs2. rewrite Hs2, Hchunks, Hs in Hfinish. done.
Qed.

(** With nothing in the set, the [while] loop ends at once. *)
Lemma passes_loop_empty G default_env (chunks : list bindings) fuel which_pass s :
  Memorize.memorize_needed s = [] →
  Memorize.passes_loop G default_env chunks fuel which_pass s = Some (s, None).
Proof. intros Hs. destruct fuel; cbn; by rewrite Hs. Qed.

(** X9. Whenever [_factors_memorize] returns, the module binds both of the
    names the function reads, no factor of [factor_passes] needs a pass,
    and the calls it has issued are one [memorize_passes_needed] for each
    factor of [all_factors], in order: it issues no [memorize_chunk] and
    no [memorize_finish] call and returns, or it does not return. The
    argument [factors] has no part in it. *)
Theorem factors_memorize_returns G fuel (stateful_transforms : Transforms)
    (default_env : bindings) (factors : list Factor) (data_iter_maker : unit → list bindings)
    (calls : list (@Memorize.call Factor)) (states : gmap Factor State) :
  Memorize._factors_memorize new_state G fuel stateful_transforms default_env factors
    data_iter_maker = Some (calls, Ok states) →
  ∃ all_factors factor_passes,
    Memorize.g_all_factors G = Some all_factors
    ∧ Memorize.g_factor_passes G = Some factor_passes
    ∧ (∀ factor passes, factor_passes !! factor = Some passes → (passes ≤ 0)%Z)
    ∧ calls = Memorize.call_memorize_passes_needed <$> all_factors.
Proof.
  unfold Memorize._factors_memorize, global.
  destruct (Memorize.g_all_factors G) as [all_factors|]; [|done].
  destruct (for_in all_factors _ _) as [s [e|]] eqn:Hsetup; [done |].
  apply setup_loop_calls in Hsetup as [Hcalls Hneeded]. cbn in Hcalls, Hneeded.
  destruct (Memorize.g_factor_passes G) as [factor_passes|]; [|done].
  cbn zeta.
  remember (filter (fun '(_, passes) => (0 < passes)%Z) (map_to_list factor_passes)).*1
    as needed eqn:Hfilter.
  destruct needed as [|factor0 needed0].
  - rewrite passes_loop_empty by done. intros [= <- <-].
    exists all_factors, factor_passes. split_and!; [done | done | | done].
    intros factor passes Hpasses.
    destruct (decide (passes ≤ 0)%Z) as [|Hpos]; [done |]. exfalso.
    symmetry in Hfilter. apply fmap_nil_inv in Hfilter.
    assert ((factor, passes) ∈ filter (fun '(_, passes) => (0 < passes)%Z)
                                 (map_to_list factor_passes)) as Hin.
    { apply list_elem_of_filter. split; [lia | by apply elem_of_map_to_list]. }
    rewrite Hfilter in Hin. by apply elem_of_nil in Hin.
  - destruct (Memorize.passes_loop _ _ _ _ _ _) as [[s' [e|]]|] eqn:Hloop; [done | | done].
    exfalso. revert Hloop. by apply passes_loop_never_ends.
Qed.
(** More passes than the loop takes make no difference. *)
Lemma passes_loop_mono G default_env (chunks : list bindings) fuel fuel' which_pass s r :
  Memorize.passes_loop G default_env chunks fuel which_pass s = Some r →
  fuel ≤ fuel' →
  Memorize.passes_loop G default_env chunks fuel' which_pass s = Some r.
Proof.
  revert fuel' which_pass s. induction fuel as [|fuel IH]; intros fuel' which_pass s; cbn.
  - destruct (Memorize.memorize_needed s) eqn:Hs; [|done].
    intros [= <-] _. by apply passes_loop_empty.
  - destruct (Memorize.memorize_needed s) as [|factor0 needed0] eqn:Hs.
    { intros [= <-] _. by apply passes_loop_empty. }
    intros Hloop Hfuel. destruct fuel' as [|fuel']; [lia |]. cbn. rewrite Hs.
    destruct (for_in chunks _ s) as [s1 [e|]]; [done |].
    destruct (Memorize.for_in_set _ _ _ _ s1) as [s2 [e|]]; [done |].
    apply IH; [done | lia].
Qed.

Lemma length_filter_remove (x : Factor) (l : list Factor) :
  x ∈ l → length (filter (fun f => f ≠ x) l) < length l.
Proof.
  induction l as [|y l IH]; [by intros ?%elem_of_nil |].
  rewrite filter_cons. intros [->|Hin]%elem_of_cons.
  - rewrite decide_False by (by intros []). cbn.
    pose proof (length_filter (fun f => f ≠ y) l). lia.
  - specialize (IH Hin). destruct (decide (y ≠ x)); cbn; lia.
Qed.

(** When the loop that finishes a pass ends without an exception, it has
    removed nothing, and the pass was the last one of no factor of the
    set. *)
Lemma finish_loop_None G which_pass (l : list Factor) s s' :
  Memorize.for_in_set (fun s => length (Memorize.memorize_needed s))
    (length (Memorize.memorize_needed s)) l (Memorize.finish_body G which_pass) s
  = (s', None) →
  (∀ factor, factor ∈ l → factor ∈ Memorize.memorize_needed s) →
  Memorize.memorize_needed s' = Memorize.memorize_needed s
  ∧ ∀ factor, factor ∈ l →
      ∃ factor_passes passes,
        Memorize.g_factor_passes G = Some factor_passes
        ∧ factor_passes !! factor = Some passes
        ∧ Z.of_nat which_pass ≠ (passes - 1)%Z.
Proof.
  revert s. induction l as [|factor l IH]; intros s; cbn.
  - rewrite decide_True by done. intros [= <-] _.
    split; [done | by intros ? ?%elem_of_nil].
  - rewrite decide_True by done. intros Hloop Hl.
    assert (factor ∈ Memorize.memorize_needed s) as Hin by (apply Hl; left).
    unfold Memorize.finish_body in Hloop at 1.
    destruct (getitem (Factor:=Factor) (Memorize.factor_states s) factor) as [state|];
      [|done].
    destruct (memorize_finish factor state which_pass) as [state'|]; cbn in Hloop; [|done].
    unfold global in Hloop.
    destruct (Memorize.g_factor_passes G) as [factor_passes|]; cbn in Hloop; [|done].
    unfold getitem in Hloop.
    destruct (factor_passes !! factor) as [passes|] eqn:Hpasses; cbn in Hloop; [|done].
    destruct (decide (Z.of_nat which_pass = (passes - 1)%Z)) as [Hlast|Hlast];
      cbn in Hloop.
    + exfalso. pose proof (length_filter_remove factor _ Hin) as Hlt.
      destruct l as [|factor' l']; cbn in Hloop.
      * rewrite decide_False in Hloop by lia. done.
      * rewrite decide_False in Hloop by lia. done.
    + match type of Hloop with
      | Memorize.for_in_set _ _ _ _ ?s1 = _ =>
          destruct (IH s1) as [Hneeded Hrest]; [exact Hloop | by intros f Hf; apply Hl; right |]
      end.
      split; [done |].
      intros factor' [->|Hin']%elem_of_cons; [by exists factor_passes, passes | by apply Hrest].
Qed.

(** The [while] loop ends, with an exception, by the last pass of any
    factor of the set. *)
Lemma passes_loop_ends G default_env (chunks : list bindings) (n which_pass : nat) s
    (factor_passes : gmap Factor Z) (factor : Factor) (passes : Z) :
  Memorize.g_factor_passes G = Some factor_passes →
  factor ∈ Memorize.memorize_needed s →
  factor_passes !! factor = Some passes →
  (Z.of_nat which_pass ≤ passes - 1 ≤ Z.of_nat which_pass + Z.of_nat n)%Z →
  is_Some (Memorize.passes_loop G default_env chunks (S n) which_pass s).
Proof.
  intros HG. revert which_pass s.
  induction n as [|n IH]; intros which_pass s Hin Hpasses Hbound.
  - cbn. destruct (Memorize.memorize_needed s) as [|factor0 needed0] eqn:Hs; [eauto |].
    pose proof (chunks_loop_needed default_env which_pass chunks s) as Hchunks.
    destruct (for_in chunks _ s) as [s1 [e|]]; [eauto |]. cbn in Hchunks.
    destruct (Memorize.for_in_set _ _ _ _ s1) as [s2 [e|]] eqn:Hfinish; [eauto |].
    exfalso. apply finish_loop_None in Hfinish as [_ Hrest]; [|done].
    destruct (Hrest factor) as (fp & p & Hfp & Hp & Hne); [by rewrite Hchunks, Hs |].
    assert (fp = factor_passes) as -> by congruence.
    assert (p = passes) as -> by congruence. lia.
  - cbn -[Memorize.passes_loop].
    change (Memorize.passes_loop G default_env chunks (S (S n)) which_pass s)
      with (match Memorize.memorize_needed s with
            | [] => Some (s, None)
            | _ =>
                match for_in chunks (Memorize.chunk_body default_env which_pass) s with
                | (s, Some e) => Some (s, Some e)
                | (s, None) =>
                    match Memorize.for_in_set (fun s => length (Memorize.memorize_needed s))
                            (length (Memorize.memorize_needed s)) (Memorize.memorize_needed s)
                            (Memorize.finish_body G which_pass) s with
                    | (s, Some e) => Some (s, Some e)
                    | (s, None) =>
                        Memorize.passes_loop G default_env chunks (S n) (S which_pass) s
                    end
                end
            end).
    destruct (Memorize.memorize_needed s) as [|factor0 needed0] eqn:Hs; [eauto |].
    pose proof (chunks_loop_needed default_env which_pass chunks s) as Hchunks.
    destruct (for_in chunks _ s) as [s1 [e|]]; [eauto |]. cbn in Hchunks.
    destruct (Memorize.for_in_set _ _ _ _ s1) as [s2 [e|]] eqn:Hfinish; [eauto |].
    apply finish_loop_None in Hfinish as [Hneeded Hrest]; [|done].
    destruct (Hrest factor) as (fp & p & Hfp & Hp & Hne); [by rewrite Hchunks, Hs |].
    assert (fp = factor_passes) as -> by congruence.
    assert (p = passes) as -> by congruence.
    apply IH; [by rewrite Hneeded, Hchunks, Hs | done | lia].
Qed.

(** X10. [_factors_memorize] ends, whatever the module binds the two names it
    reads to: there is a number of passes from which on the bound on the
    passes of the [while] loop makes no difference, and the call has one
    outcome, the calls it issued together with the states it returned or
    the exception it raised. *)
Theorem factors_memorize_terminates G (stateful_transforms : Transforms)
    (default_env : bindings) (factors : list Factor) (data_iter_maker : unit → list bindings) :
  ∃ fuel outcome, ∀ fuel', fuel ≤ fuel' →
    Memorize._factors_memorize new_state G fuel' stateful_transforms default_env factors
      data_iter_maker = Some outcome.
Proof.
  unfold Memorize._factors_memorize, global.
  destruct (Memorize.g_all_factors G) as [all_factors|]; [|by exists 0; eauto].
  destruct (for_in all_factors _ _) as [s [e|]]; [by exists 0; eauto |].
  destruct (Memorize.g_factor_passes G) as [factor_passes|] eqn:HG; [|by exists 0; eauto].
  cbn zeta.
  remember (filter (fun '(_, passes) => (0 < passes)%Z) (map_to_list factor_passes)).*1
    as needed eqn:Hfilter.
  assert (∃ fuel, is_Some (Memorize.passes_loop G default_env (data_iter_maker ()) fuel 0
                             (Memorize.set_needed needed s))) as [fuel [r Hr]].
  { destruct needed as [|factor needed0]; [exists 0; by rewrite passes_loop_empty |].
    assert (factor ∈ (filter (fun '(_, passes) => (0 < passes)%Z)
                        (map_to_list factor_passes)).*1) as Hin
      by (rewrite <- Hfilter; left).
    apply list_elem_of_fmap in Hin as ([factor' passes] & -> & Hin).
    apply list_elem_of_filter in Hin as [Hpos Hin]. apply elem_of_map_to_list in Hin.
    exists (S (Z.to_nat (passes - 1))).
    apply (passes_loop_ends G default_env _ _ 0 _ factor_passes factor' passes);
      [done | cbn; left | done | cbn in *; lia]. }
  exists fuel. destruct r as [s' [e|]].
  - exists (Memorize.calls s', Raise e). intros fuel' Hfuel.
    by rewrite (passes_loop_mono _ _ _ _ _ _ _ _ Hr Hfuel).
  - exists (Memorize.calls s', Ok (Memorize.factor_states s')). intros fuel' Hfuel.
    by rewrite (passes_loop_mono _ _ _ _ _ _ _ _ Hr Hfuel).
Qed.
End memorize_facts.

(** X9, on a factor that declares no pass, with the two names bound to the
    factor and to its pass count. *)
Lemma factors_memorize_returns_witness :
  let zero_pass : PassFactor := {| pass_name := "z"; passes_declared := 0 |} in
  ∃ all_factors factor_passes,
    Some [zero_pass] = Some all_factors
    ∧ Some ({[ zero_pass := 0%Z ]} : gmap PassFactor Z) = Some factor_passes
    ∧ (∀ factor passes, factor_passes !! factor = Some passes → (passes ≤ 0)%Z)
    ∧ [Memorize.call_memorize_passes_needed zero_pass]
      = Memorize.call_memorize_passes_needed <$> all_factors.
Proof.
  intros zero_pass.
  apply (factors_memorize_returns 0
           {| Memorize.g_all_factors := Some [zero_pass];
              Memorize.g_factor_passes := Some {[ zero_pass := 0%Z ]} |}
           1 () ∅ [zero_pass] test_memorize.data_iter_maker
           [Memorize.call_memorize_passes_needed zero_pass] {[ zero_pass := 0 ]}).
  reflexivity.
Defined.

(** ** [_examine_factor_types], whatever the module binds [factor_states] to *)
Section examine_more.
Context {Factor State Transforms : Type} `{Countable Factor}.
Context `{FactorProtocol Factor State Transforms}.
Context {CT : Type}.
Variable ct_new : CT.
Variable ct_memorize_chunk : CT → array → result Factor CT.
Variable ct_memorize_finish : CT → result Factor CT.
Implicit Types (s : @Examine.locals Factor _ _ CT) (G : @Examine.globals Factor State _ _).

(** The examination of a factor raises whatever the factor evaluates to:
    a value of a numeric dtype comes to the call of
    [_get_numeric_column_count], which the module does not bind, and any
    other value to the check for at most 1 dimension on an array of 2
    dimensions. *)
Lemma examine_factor_always_raises G (data : bindings) (factor : Factor) s :
  raises (Examine.examine_factor ct_new ct_memorize_chunk G data factor s).
Proof.
  unfold Examine.examine_factor.
  destruct G as [factor_states|]; cbn; [|apply raises_Raise].
  destruct (getitem (Factor:=Factor) factor_states factor) as [state|]; cbn;
    [|apply raises_Raise].
  destruct (eval factor state [data]) as [v|];
    cbn -[atleast_2d_column_default _max_allowed_dim]; [|apply raises_Raise].
  destruct (max_allowed_dim_1_raises v factor) as [e He].
  revert He. generalize (atleast_2d_column_default v). intros arr He.
  apply raises_bind. intros s'. apply raises_bind. intros _.
  destruct (is_number arr); [apply raises_Raise |].
  destruct (is_bool_kind arr); rewrite He; apply raises_Raise.
Qed.

(** X11. [_examine_factor_types] classifies no factor, whatever
    [factor_states] is bound to: as soon as the stream has a chunk and
    there is a factor, the call raises. (With the name bound and a state
    for the factor, a value of a numeric dtype comes to the call of
    [_get_numeric_column_count], a name the module does not bind, and a
    value of any other dtype, a categorical value among them, to the check
    for at most 1 dimension on an array that the coercion has given 2
    dimensions.) *)
Theorem examine_always_raises {Args Kwargs : Type} G (factors : list Factor)
    (data_iter_maker : Args → Kwargs → list bindings) (args : Args) (kwargs : Kwargs) :
  data_iter_maker args kwargs ≠ [] →
  factors ≠ [] →
  ∃ e, Examine._examine_factor_types ct_new ct_memorize_chunk ct_memorize_finish G factors
         data_iter_maker args kwargs = Raise e.
Proof.
  intros Hstream Hfactors. unfold Examine._examine_factor_types.
  destruct (data_iter_maker args kwargs) as [|data chunks]; [done |].
  assert (∃ factor, factor ∈ factors) as [factor Hin]
    by (destruct factors; [done | eexists; left]).
  cbn -[elements]. rewrite decide_False by set_solver.
  destruct (for_each_raises (elements (list_to_set (C:=gset Factor) factors))
              (Examine.examine_factor ct_new ct_memorize_chunk G data) factor
              (Examine.Locals ∅ ∅ ∅ (list_to_set factors))) as [e ->].
  - apply elem_of_elements. set_solver.
  - intros s. apply examine_factor_always_raises.
  - by exists e.
Qed.

(** X12. With [factor_states] unbound, as the module has it, the call returns
    exactly when there is nothing to examine, that is when the stream is
    empty or there is no factor, and it then returns three empty dicts;
    otherwise it raises [NameError]. When there is nothing to examine it
    returns the three empty dicts whatever the name is bound to. *)
Theorem examine_nothing_to_examine {Args Kwargs : Type} (factors : list Factor)
    (data_iter_maker : Args → Kwargs → list bindings) (args : Args) (kwargs : Kwargs) :
  let examine G := Examine._examine_factor_types ct_new ct_memorize_chunk ct_memorize_finish
                     G factors data_iter_maker args kwargs in
  match data_iter_maker args kwargs, factors with
  | [], _ | _, [] => ∀ G, examine G = Ok (∅, ∅, ∅)
  | _ :: _, _ :: _ => examine Examine.spec_globals = Raise (NameError "factor_states")
  end.
Proof.
  cbn zeta. unfold Examine._examine_factor_types.
  destruct (data_iter_maker args kwargs) as [|data chunks].
  - intros G. cbn. by rewrite map_to_list_empty.
  - destruct factors as [|factor factors'].
    + intros G. cbn. rewrite decide_True by done. cbn. by rewrite map_to_list_empty.
    + cbn -[elements]. rewrite decide_False by set_solver.
      destruct (elements _) as [|factor0 l] eqn:Helements.
      * apply elements_empty_inv in Helements. set_solver.
      * done.
Qed.

(** X13. No numeric factor is classified: when [factor_states] is bound
    to a dict that has a state for every factor, and every factor
    evaluates on the first chunk to a numeric array of at most 2
    dimensions, the call raises the [NameError] of
    [_get_numeric_column_count] at the first factor it examines, whatever
    chunks follow. *)
Theorem examine_numeric_NameError {Args Kwargs : Type} (factor_states : gmap Factor State)
    (factors : list Factor) (data : bindings) (chunks : list bindings)
    (args : Args) (kwargs : Kwargs) :
  factors ≠ [] →
  (∀ factor, factor ∈ factors →
     ∃ state a, factor_states !! factor = Some state
                ∧ eval factor state [data] = Ok (VArray a)
                ∧ is_number a = true ∧ array_ndim a ≤ 2) →
  Examine._examine_factor_types ct_new ct_memorize_chunk ct_memorize_finish
    (Some factor_states) factors (fun _ _ => data :: chunks) args kwargs
  = Raise (NameError "_get_numeric_column_count").
Proof.
  intros Hne Hfactors. unfold Examine._examine_factor_types. cbn -[elements].
  rewrite decide_False by (destruct factors; [done | set_solver]).
  destruct (elements (list_to_set (C:=gset Factor) factors)) as [|factor l] eqn:Helements.
  { apply elements_empty_inv in Helements. destruct factors; [done | set_solver]. }
  assert (factor ∈ factors) as Hin.
  { apply (elem_of_list_to_set (C:=gset Factor)), elem_of_elements.
    rewrite Helements. left. }
  destruct (Hfactors factor Hin) as (state & a & Hstate & Heval & Hnumber & Hdim).
  cbn -[Examine.examine_factor].
  assert (Examine.examine_factor ct_new ct_memorize_chunk (Some factor_states) data factor
            (Examine.Locals ∅ ∅ ∅ (list_to_set factors))
          = Raise (NameError "_get_numeric_column_count")) as ->; [|done].
  unfold Examine.examine_factor, global, getitem. cbn. rewrite Hstate. cbn.
  rewrite Heval. cbn -[atleast_2d_column_default _max_allowed_dim].
  assert (is_number (atleast_2d_column_default (VArray a)) = true) as ->
    by (by destruct a).
  assert (array_ndim (atleast_2d_column_default (VArray a)) ≤ 2) as Hdim'.
  { unfold array_ndim in *.
    destruct a as [[sh ?]|[sh ?]|[sh ?]|[sh ?]|[sh ?]]; cbn in *;
      destruct sh as [|? [|? ?]]; cbn in *; lia. }
  unfold _max_allowed_dim. by rewrite decide_False by lia.
Qed.
End examine_more.

(** X11, on the factor and the chunk [{"mock": [1, 2, 3]}] of
    [test_NumericFactorEvaluator], with [factor_states] bound to a dict
    that has an empty state for the factor. *)
Lemma examine_always_raises_witness :
  let f := test_evaluators.f in
  ∃ e, Examine._examine_factor_types (CT:=unit) () (fun _ _ => Ok ()) (fun _ => Ok ())
         (Some {[ f := ∅ ]}) [f] (fun _ _ : unit => [test_evaluators.mock123]) () ()
       = Raise e.
Proof.
  intros f.
  apply (examine_always_raises (CT:=unit) () (fun _ _ => Ok ()) (fun _ => Ok ())
           (Some {[ f := ∅ ]}) [f] (fun _ _ : unit => [test_evaluators.mock123]) () ());
    discriminate.
Defined.

(** X13, on the same factor and chunk. *)
Lemma examine_numeric_NameError_witness :
  let f := test_evaluators.f in
  Examine._examine_factor_types (CT:=unit) () (fun _ _ => Ok ()) (fun _ => Ok ())
    (Some {[ f := ∅ ]}) [f] (fun _ _ : unit => [test_evaluators.mock123]) () ()
  = Raise (NameError "_get_numeric_column_count").
Proof.
  intros f.
  apply (examine_numeric_NameError (CT:=unit) () (fun _ _ => Ok ()) (fun _ => Ok ())
           {[ f := ∅ ]} [f] test_evaluators.mock123 [] () ()); [discriminate |].
  intros factor ->%list_elem_of_singleton.
  exists ∅, (AInt (NDArray [3] [1; 2; 3]%Z)).
  split_and!; [reflexivity | reflexivity | reflexivity | cbn; lia].
Defined.

(** ** [ModelMatrixBuilder], further *)
Section ModelMatrixBuilder_more.
Context {Factor Term Evaluator : Type} `{Countable Factor} `{Countable Term}.
Variable name : Factor → string.
Implicit Types (terms : list Term) (builders : list (@ColumnBuilder.t Factor _ _)).
Implicit Types (term_column_builders : gmap Term (list (@ColumnBuilder.t Factor _ _))).

(** The failure of the inner loop is the failure of the [column_names] of
    one of the builders. *)
Lemma builders_loop_Raise builders this_count column_names e :
  ModelMatrixBuilder.builders_loop name builders this_count column_names = Raise e →
  Exists (fun builder => ColumnBuilder.column_names name builder = Raise e) builders.
Proof.
  revert this_count column_names.
  induction builders as [|builder builders IH]; intros this_count column_names; cbn; [done |].
  destruct (ColumnBuilder.column_names name builder) as [this_names|e'] eqn:Hnames; cbn.
  - intros Hrest%IH. by apply Exists_cons_tl.
  - intros [= <-]. by apply Exists_cons_hd.
Qed.

(** The failure of a term: it has no entry in [term_column_builders], or
    one of its builders fails to give its column names. *)
Definition term_fails term_column_builders (e : exn Factor) (term : Term) : Prop :=
  (term_column_builders !! term = None ∧ e = KeyError)
  ∨ ∃ builders, term_column_builders !! term = Some builders
                ∧ Exists (fun builder => ColumnBuilder.column_names name builder = Raise e)
                    builders.

Lemma terms_loop_Raise term_column_builders terms counts column_names e :
  ModelMatrixBuilder.terms_loop name term_column_builders terms counts column_names = Raise e →
  Exists (term_fails term_column_builders e) terms.
Proof.
  revert counts column_names.
  induction terms as [|term terms IH]; intros counts column_names; cbn; [done |].
  unfold getitem at 1.
  destruct (term_column_builders !! term) as [builders|] eqn:Hbuilders; cbn.
  - destruct (ModelMatrixBuilder.builders_loop name builders 0 column_names)
      as [[this_count names1]|e'] eqn:Hloop; cbn.
    + intros Hrest%IH. by apply Exists_cons_tl.
    + intros [= <-]. apply Exists_cons_hd. right. exists builders.
      split; [done |]. by eapply builders_loop_Raise.
  - intros [= <-]. apply Exists_cons_hd. by left.
Qed.

(** The second loop returns when the starts are enough for its indices. *)
Lemma spans_loop_total (starts : list nat) (l : list (nat * Term)) (spans : gmap Term (nat * nat)) :
  (∀ i term, (i, term) ∈ l → i + 1 < length starts) →
  ∃ spans', ModelMatrixBuilder.spans_loop (Factor:=Factor) starts l spans = Ok spans'.
Proof.
  revert spans. induction l as [|[i term] l IH]; intros spans Hl; cbn; [eauto |].
  assert (i + 1 < length starts) as Hi by (eapply Hl; left).
  destruct (lookup_lt_is_Some_2 starts i) as [start Hstart]; [lia |].
  destruct (lookup_lt_is_Some_2 starts (i + 1)) as [stop Hstop]; [lia |].
  unfold list_getitem. rewrite Hstart, Hstop. cbn. apply IH.
  intros j term' Hin. eapply Hl. by right.
Qed.

(** A term that the second loop does not meet keeps what the dict had. *)
Lemma spans_loop_notin (starts : list nat) (l : list (nat * Term))
    (spans spans' : gmap Term (nat * nat)) (term : Term) :
  ModelMatrixBuilder.spans_loop (Factor:=Factor) starts l spans = Ok spans' →
  term ∉ l.*2 → spans' !! term = spans !! term.
Proof.
  revert spans. induction l as [|[i term0] l IH]; intros spans; cbn; [by intros [= <-] |].
  destruct (list_getitem starts i) as [start|]; cbn; [|done].
  destruct (list_getitem starts (i + 1)) as [stop|]; cbn; [|done].
  intros Hloop [Hne Hnotin]%not_elem_of_cons.
  rewrite (IH _ Hloop Hnotin). by apply lookup_insert_ne.
Qed.

(** A term that the second loop meets has the span of the last time the
    loop met it. *)
Lemma spans_loop_last (starts : list nat) (l : list (nat * Term))
    (spans spans' : gmap Term (nat * nat)) (k i : nat) (term : Term) :
  ModelMatrixBuilder.spans_loop (Factor:=Factor) starts l spans = Ok spans' →
  l !! k = Some (i, term) →
  (∀ k' i', k < k' → l !! k' ≠ Some (i', term)) →
  ∃ start stop, starts !! i = Some start ∧ starts !! (i + 1) = Some stop
                ∧ spans' !! term = Some (start, stop).
Proof.
  revert spans k. induction l as [|[i0 term0] l IH]; intros spans k; cbn; [done |].
  unfold list_getitem.
  destruct (starts !! i0) as [start|] eqn:Hstart; cbn; [|done].
  destruct (starts !! (i0 + 1)) as [stop|] eqn:Hstop; cbn; [|done].
  intros Hloop Hk Hlast. destruct k as [|k]; cbn in Hk.
  - injection Hk as -> ->. exists start, stop. split_and!; [done | done |].
    rewrite (spans_loop_notin _ _ _ _ term Hloop); [apply lookup_insert_eq |].
    intros ([i' term'] & Hterm & Hin%list_elem_of_lookup)%list_elem_of_fmap.
    cbn in Hterm. subst term'. destruct Hin as [k' Hk'].
    by apply (Hlast (S k') i'); [lia |].
  - apply (IH _ k Hloop Hk). intros k' i' Hlt. apply (Hlast (S k') i'). lia.
Qed.

Lemma enumerate_lookup_index {A} (l : list A) i x :
  enumerate l !! i = Some x ↔ ∃ y, l !! i = Some y ∧ x = (i, y).
Proof.
  unfold enumerate. rewrite lookup_zip_with_Some. split.
  - intros (j & y & -> & Hj & Hy). apply lookup_seq in Hj as [-> _]. eauto.
  - intros (y & Hy & ->). exists i, y. split_and!; [done | | done].
    apply lookup_seq. split; [done |]. by eapply lookup_lt_Some.
Qed.

Lemma length_join_take (ls : list (list string)) i :
  sum_list (take i (length <$> ls)) = length (mjoin (take i ls)).
Proof. by rewrite length_join, fmap_take. Qed.

(** X14. [ModelMatrixBuilder.__init__] returns exactly when every term has an
    entry in [term_column_builders] whose builders all give their column
    names; it then keeps its three arguments and gives the two span dicts
    the same entries. Its failure is the [KeyError] of a term without
    entry, or the failure of the [column_names] of a builder of a term. *)
Theorem ModelMatrixBuilder_init_outcome terms (factor_evaluators : gmap Factor Evaluator)
    term_column_builders :
  match ModelMatrixBuilder.init name terms factor_evaluators term_column_builders with
  | Ok self =>
      ModelMatrixBuilder.terms self = terms
      ∧ ModelMatrixBuilder.factor_evaluators self = factor_evaluators
      ∧ ModelMatrixBuilder.term_column_builders self = term_column_builders
      ∧ ModelMatrixBuilder.term_name_to_columns (ModelMatrixBuilder.column_info self)
        = ModelMatrixBuilder.term_to_columns (ModelMatrixBuilder.column_info self)
      ∧ Forall (fun term => ∃ names, term_names name term_column_builders term names) terms
  | Raise e => Exists (term_fails term_column_builders e) terms
  end.
Proof.
  unfold ModelMatrixBuilder.init.
  destruct (ModelMatrixBuilder.terms_loop name term_column_builders terms [] [])
    as [[counts names]|e] eqn:Hterms; cbn; [|by eapply terms_loop_Raise].
  apply terms_loop_Ok in Hterms as (per_term & Hper & -> & ->). cbn.
  destruct (spans_loop_total (0 :: ModelMatrixBuilder.cumsum_from 0 (length <$> per_term))
              (enumerate terms) ∅) as [spans ->].
  { intros i term Hin%enumerate_lookup%lookup_lt_Some. cbn.
    rewrite length_cumsum_from, length_fmap, <- (Forall2_length _ _ _ Hper). lia. }
  cbn. split_and!; try done.
  apply Forall_forall. intros term [i Hi]%list_elem_of_lookup.
  destruct (Forall2_lookup_l _ _ _ _ _ Hper Hi) as (names & _ & Hnames). eauto.
Qed.

(** X15. The spans of a constructed builder, also when a term is listed more
    than once: the column names are those of the terms in the order of
    the list, one stretch for every listed term; a term is mapped to the
    stretch of its last position in the list (from the number of the names
    before that position to the number of the names up to it), so the
    columns of its earlier positions belong to no span; a term that is not
    listed has no span. *)
Theorem term_to_columns_last_occurrence terms (factor_evaluators : gmap Factor Evaluator)
    term_column_builders self :
  ModelMatrixBuilder.init name terms factor_evaluators term_column_builders = Ok self →
  let info := ModelMatrixBuilder.column_info self in
  ∃ per_term : list (list string),
    Forall2 (term_names name term_column_builders) terms per_term
    ∧ ModelMatrixBuilder.column_names info = mjoin per_term
    ∧ (∀ i term, terms !! i = Some term → (∀ j, i < j → terms !! j ≠ Some term) →
         ModelMatrixBuilder.term_to_columns info !! term
         = Some (length (mjoin (take i per_term)), length (mjoin (take (S i) per_term))))
    ∧ (∀ term, term ∉ terms → ModelMatrixBuilder.term_to_columns info !! term = None).
Proof.
  unfold ModelMatrixBuilder.init. intros Hinit.
  destruct (ModelMatrixBuilder.terms_loop name term_column_builders terms [] [])
    as [[counts names]|] eqn:Hterms; cbn in Hinit; [|done].
  apply terms_loop_Ok in Hterms as (per_term & Hper & -> & ->). cbn in Hinit.
  destruct (ModelMatrixBuilder.spans_loop _ _ _) as [spans|] eqn:Hspans; cbn in Hinit; [|done].
  injection Hinit as <-. cbn.
  pose proof (Forall2_length _ _ _ Hper) as Hlen.
  exists per_term. split_and!; [done | done | |].
  - intros i term Hterm Hlast.
    destruct (spans_loop_last _ _ _ _ i i term Hspans) as (start & stop & Hstart & Hstop & ->).
    + apply enumerate_lookup_index. eauto.
    + intros k' i' Hlt (y & Hy & [= -> ->])%enumerate_lookup_index. by apply (Hlast k').
    + assert (i < length per_term) as Hi by (apply lookup_lt_Some in Hterm; lia).
      rewrite starts_lookup in Hstart by (rewrite length_fmap; lia).
      replace (i + 1) with (S i) in Hstop by lia.
      rewrite starts_lookup in Hstop by (rewrite length_fmap; lia).
      rewrite length_join_take in Hstart, Hstop. congruence.
  - intros term Hterm.
    rewrite (spans_loop_notin _ _ _ _ term Hspans) by (by rewrite enumerate_snd). done.
Qed.
End ModelMatrixBuilder_more.

(** X15, on a term list that names the intercept twice: the four column names
    hold "Intercept" twice, and the intercept is mapped to the last
    column only. *)
Lemma term_to_columns_last_occurrence_witness :
  let info := ModelMatrixBuilder.column_info test_repeated_terms.builder in
  ∃ per_term : list (list string),
    Forall2 (term_names name test_ModelMatrixBuilder.term_column_builders)
      test_repeated_terms.terms per_term
    ∧ ModelMatrixBuilder.column_names info = mjoin per_term
    ∧ (∀ i term, test_repeated_terms.terms !! i = Some term →
         (∀ j, i < j → test_repeated_terms.terms !! j ≠ Some term) →
         ModelMatrixBuilder.term_to_columns info !! term
         = Some (length (mjoin (take i per_term)), length (mjoin (take (S i) per_term))))
    ∧ (∀ term, term ∉ test_repeated_terms.terms →
         ModelMatrixBuilder.term_to_columns info !! term = None).
Proof.
  apply (term_to_columns_last_occurrence name test_repeated_terms.terms ∅
           test_ModelMatrixBuilder.term_column_builders test_repeated_terms.builder).
  reflexivity.
Defined.

(** ** [_make_model_builder] *)
Section make_model_builder_facts.
Context {Factor Term Subterm NumericFators PP LC : Type} `{Countable Factor}.
Variable term_factors : Term → list Factor.
Implicit Types (terms : list Term) (numeric_column_counts : gmap Factor nat).
Implicit Types (bucket : gset Factor).

(** The first loop appends to the list of its bucket every term it meets. *)
Lemma term_buckets_foldl numeric_column_counts terms bucket
    (term_buckets : gmap (gset Factor) (list Term)) :
  foldl (fun term_buckets term =>
           let bucket := MakeModelBuilder.bucket_of term_factors numeric_column_counts term in
           <[bucket := (default [] (term_buckets !! bucket) ++ [term])%list]> term_buckets)
    term_buckets terms !! bucket
  = match filter (fun term => MakeModelBuilder.bucket_of term_factors numeric_column_counts term
                              = bucket) terms with
    | [] => term_buckets !! bucket
    | l => Some (default [] (term_buckets !! bucket) ++ l)%list
    end.
Proof.
  revert term_buckets. induction terms as [|term terms IH]; intros term_buckets; [done |].
  cbn [foldl]. rewrite IH. rewrite filter_cons. cbn zeta.
  destruct (decide (MakeModelBuilder.bucket_of term_factors numeric_column_counts term = bucket))
    as [->|Hne].
  - rewrite lookup_insert_eq. cbn. destruct (filter _ terms); [done |].
    by rewrite <- app_assoc.
  - rewrite lookup_insert_ne by done. done.
Qed.

(** The list of a bucket: the terms of that bucket, in the order of the
    argument. *)
Lemma term_buckets_lookup numeric_column_counts terms bucket :
  MakeModelBuilder.term_buckets term_factors numeric_column_counts terms !! bucket
  = match filter (fun term => MakeModelBuilder.bucket_of term_factors numeric_column_counts term
                              = bucket) terms with
    | [] => None
    | l => Some l
    end.
Proof.
  unfold MakeModelBuilder.term_buckets. rewrite term_buckets_foldl.
  rewrite lookup_empty. done.
Qed.

(** X16. The terms are sorted into buckets by the set of their numeric
    factors: a set has a bucket exactly when it is the set of the numeric
    factors of some term, and the list of the bucket then holds the terms
    with exactly that set, in the order of the argument. So no bucket is
    empty, and every term is in the list of its own bucket and of no
    other. *)
Theorem term_buckets_partition numeric_column_counts terms bucket (l : list Term) :
  MakeModelBuilder.term_buckets term_factors numeric_column_counts terms !! bucket = Some l
  ↔ l ≠ []
    ∧ l = filter (fun term => MakeModelBuilder.bucket_of term_factors numeric_column_counts term
                              = bucket) terms.
Proof.
  rewrite term_buckets_lookup. destruct (filter _ terms) as [|term l0]; split.
  - done.
  - by intros [Hne ->].
  - by intros [= <-].
  - by intros [_ ->].
Qed.

Lemma length_insert_by_key {A} (key : A → nat) (x : A) (l : list A) :
  length (MakeModelBuilder.insert_by_key key x l) = S (length l).
Proof.
  induction l as [|y l IH]; cbn; [done |].
  destruct (decide (key x ≤ key y)); cbn; [done | by rewrite IH].
Qed.

Lemma length_sort_by_key {A} (key : A → nat) (l : list A) :
  length (MakeModelBuilder.sort_by_key key l) = length l.
Proof.
  induction l as [|x l IH]; cbn; [done |].
  by rewrite length_insert_by_key, <- IH.
Qed.

(** The second loop raises what the body raises on the first term of the
    first bucket, when the body raises on every term. *)
Lemma make_model_builder_raises (G : @MakeModelBuilder.globals Factor Term Subterm NumericFators)
    terms numeric_column_counts (categorical_postprocessors : gmap Factor PP)
    (categorical_levels_contrasts : gmap Factor LC) (e : exn Factor) :
  terms ≠ [] →
  (∀ term, MakeModelBuilder.expand_term G term = Raise e) →
  MakeModelBuilder._make_model_builder term_factors G terms numeric_column_counts
    categorical_postprocessors categorical_levels_contrasts = Raise e.
Proof.
  intros Hterms Hbody. unfold MakeModelBuilder._make_model_builder.
  destruct (map_to_list _) as [|[numeric_factors bucket] buckets] eqn:Hbuckets.
  - apply map_to_list_empty_iff in Hbuckets.
    destruct terms as [|term terms']; [done |].
    pose proof (term_buckets_lookup numeric_column_counts (term :: terms')
                  (MakeModelBuilder.bucket_of term_factors numeric_column_counts term))
      as Hbucket.
    rewrite Hbuckets, lookup_empty, filter_cons, decide_True in Hbucket by done. done.
  - assert (MakeModelBuilder.term_buckets term_factors numeric_column_counts terms
              !! numeric_factors = Some bucket) as Hbucket.
    { apply elem_of_map_to_list. rewrite Hbuckets. left. }
    rewrite term_buckets_lookup in Hbucket.
    assert (bucket ≠ []) as Hne by (destruct (filter _ terms); congruence).
    cbn. destruct (MakeModelBuilder.sort_by_key _ bucket) as [|term sorted] eqn:Hsorted.
    + apply (f_equal length) in Hsorted. rewrite length_sort_by_key in Hsorted.
      by destruct bucket.
    + cbn. by rewrite Hbody.
Qed.

(** X17. [_make_model_builder] as the module has it: it returns (the value
    [None]) when there is no term, whatever the two names it reads are
    bound to; for one term or more it raises the [NameError] of
    [_expand_categorical_part], which the module does not bind, and, were
    that name bound, the [NameError] of [numeric_fators], the misspelt
    loop variable. It builds no builder in either case. *)
Theorem make_model_builder_NameError terms numeric_column_counts
    (categorical_postprocessors : gmap Factor PP)
    (categorical_levels_contrasts : gmap Factor LC) :
  let make (G : @MakeModelBuilder.globals Factor Term Subterm NumericFators) terms :=
    MakeModelBuilder._make_model_builder term_factors G terms numeric_column_counts
      categorical_postprocessors categorical_levels_contrasts in
  (∀ G, make G [] = Ok ())
  ∧ make MakeModelBuilder.spec_globals terms
    = match terms with
      | [] => Ok ()
      | _ :: _ => Raise (NameError "_expand_categorical_part")
      end
  ∧ (∀ G, terms ≠ [] → MakeModelBuilder.g_expand_categorical_part G = None →
       make G terms = Raise (NameError "_expand_categorical_part"))
  ∧ (∀ G, terms ≠ [] → is_Some (MakeModelBuilder.g_expand_categorical_part G) →
       MakeModelBuilder.g_numeric_fators G = None →
       make G terms = Raise (NameError "numeric_fators")).
Proof.
  cbn zeta.
  assert (∀ G : @MakeModelBuilder.globals Factor Term Subterm NumericFators,
            MakeModelBuilder._make_model_builder term_factors G [] numeric_column_counts
              categorical_postprocessors categorical_levels_contrasts = Ok ()) as Hnil.
  { intros G. unfold MakeModelBuilder._make_model_builder, MakeModelBuilder.term_buckets.
    cbn. by rewrite map_to_list_empty. }
  split_and!.
  - done.
  - destruct terms as [|term terms']; [done |].
    apply make_model_builder_raises; done.
  - intros G Hterms Hexpand. apply make_model_builder_raises; [done |].
    intros term. unfold MakeModelBuilder.expand_term. by rewrite Hexpand.
  - intros G Hterms [expand Hexpand] Hnumeric. apply make_model_builder_raises; [done |].
    intros term. unfold MakeModelBuilder.expand_term. by rewrite Hexpand, Hnumeric.
Qed.
End make_model_builder_facts.

(** ** A factor that is a key of both dicts of a [ColumnBuilder] *)
Section ColumnBuilder_both_dicts.
Context {Factor : Type} `{Countable Factor}.
Variable name : Factor → string.
Implicit Types (factors : list Factor) (numeric_columns : gmap Factor nat).
Implicit Types (categoric_contrasts : gmap Factor ContrastMatrix).
Implicit Types (self : @ColumnBuilder.t Factor _ _).

(** The odometer yields every combination of indices below the radices. *)
Lemma odometer_iter_elem (maximums idxs : list nat) :
  Forall2 (fun idx maximum => idx < maximum) idxs maximums →
  idxs ∈ odometer_iter maximums.
Proof.
  induction 1 as [|idx maximum idxs maximums Hidx _ IH]; cbn; [by left |].
  apply list_elem_of_bind. exists idx. split.
  - apply list_elem_of_fmap. by exists idxs.
  - apply elem_of_seq. lia.
Qed.

(** A loop that collects results raises when its body raises on an item. *)
Lemma mapM_Raise {A B} (f : A → result Factor B) (l : list A) (x : A) :
  x ∈ l → (∃ e, f x = Raise e) → ∃ e, mapM f l = Raise e.
Proof.
  intros Hx [e He]. induction l as [|y l IH]; [by apply elem_of_nil in Hx |].
  cbn. destruct (f y) as [b|e'] eqn:Hy; cbn; [|eauto].
  apply elem_of_cons in Hx as [<-|Hx]; [congruence |].
  destruct (IH Hx) as [e' ->]. cbn. eauto.
Qed.

(** X18. [__init__] looks a factor up in [categoric_contrasts] first, and
    [column_names] in [numeric_columns] first. So for a factor that is a
    key of both, with a numeric column count of at most 1 and a contrast
    matrix of 2 columns or more, the builder is constructed with the
    width of the contrast, and [column_names()] then raises (the index 1
    of the factor fails the assertion [column_idx == 0], if nothing
    fails before it), provided no factor has the width 0. *)
Theorem column_names_both_dicts factors numeric_columns categoric_contrasts self
    (factor : Factor) (n : nat) (contrast : ContrastMatrix) :
  ColumnBuilder.init factors numeric_columns categoric_contrasts = Ok self →
  factor ∈ factors →
  numeric_columns !! factor = Some n → n ≤ 1 →
  categoric_contrasts !! factor = Some contrast →
  2 ≤ ncols (contrast_matrix contrast) →
  Forall (fun width => 0 < width) (ColumnBuilder.columns_per_factor self) →
  ∃ e, ColumnBuilder.column_names name self = Raise e.
Proof.
  intros (Hf & Hn & Hc & Hwidths)%init_Ok [k Hk]%list_elem_of_lookup Hnum Hle Hcat Hcols Hpos.
  destruct (Forall2_lookup_l _ _ _ _ _ Hwidths Hk) as (width & Hwidth & Hfw).
  unfold factor_width in Hfw. rewrite Hcat in Hfw. injection Hfw as <-.
  pose (idxs := <[k := 1]> (replicate (length (ColumnBuilder.columns_per_factor self)) 0)).
  assert (idxs !! k = Some 1) as Hidx.
  { unfold idxs. apply list_lookup_insert_eq. rewrite length_replicate.
    by eapply lookup_lt_Some. }
  assert (idxs ∈ odometer_iter (ColumnBuilder.columns_per_factor self)) as Hin.
  { apply odometer_iter_elem. apply Forall2_same_length_lookup. split.
    - unfold idxs. by rewrite length_insert, length_replicate.
    - intros i idx maximum Hi Hmax. destruct (decide (i = k)) as [->|Hne].
      + rewrite Hidx in Hi. injection Hi as <-. rewrite Hwidth in Hmax.
        injection Hmax as <-. lia.
      + unfold idxs in Hi. rewrite list_lookup_insert_ne in Hi by done.
        apply lookup_replicate in Hi as [-> _].
        by eapply (proj1 (Forall_lookup _ _) Hpos). }
  unfold ColumnBuilder.column_names. rewrite Hf.
  destruct factors as [|factor0 factors0] eqn:Hfactors; [done |]. rewrite <- Hfactors in *.
  match goal with
  | |- context [mapM ?f (odometer_iter ?l)] =>
      destruct (mapM_Raise f (odometer_iter l) idxs Hin) as [e ->]; [|by exists e]
  end.
  match goal with
  | |- context [mapM ?f (zip ?l idxs)] =>
      destruct (mapM_Raise f (zip l idxs) (factor, 1)) as [e ->]; [| |by exists e]
  end.
  - apply list_elem_of_lookup. exists k. apply lookup_zip_with_Some.
    exists factor, 1. by split_and!.
  - unfold ColumnBuilder.name_piece. rewrite Hn, Hnum.
    rewrite decide_False by lia. cbn. eauto.
Qed.
End ColumnBuilder_both_dicts.

(** X18, on one factor, numeric of 1 column and categorical with the contrast
    of [test_ColumnBuilder]. *)
Lemma column_names_both_dicts_witness :
  let f := test_ColumnBuilder.f2 in
  let numeric_columns : gmap _MockFactor nat := {[ f := 1 ]} in
  ∃ e, ColumnBuilder.column_names name
         (ColumnBuilder.Build_t [f] numeric_columns test_ColumnBuilder.categoric_contrasts [2])
       = Raise e.
Proof.
  intros f numeric_columns.
  apply (column_names_both_dicts name [f] numeric_columns test_ColumnBuilder.categoric_contrasts
           (ColumnBuilder.Build_t [f] numeric_columns test_ColumnBuilder.categoric_contrasts [2])
           f 1 test_ColumnBuilder.contrast).
  - reflexivity.
  - apply list_elem_of_singleton. reflexivity.
  - reflexivity.
  - lia.
  - reflexivity.
  - cbn. lia.
  - repeat constructor.
Defined.
